(** * BMP codec of the image converter (ImgLib/bmp_image.cpp)

    A shallow embedding of [GetBMPStride], [SaveBMP] and [LoadBMP], and the
    properties of the 24-bit uncompressed bottom-up BMP layout they
    implement; and of the converter that drives them
    (ImgConverter/main.cpp): [GetFormatByExtension], [GetFormatInterface]
    and [main], over the extension of a path and the PPM and JPEG codecs
    taken as parameters.

    Conventions of the embedding.
    - C++ [int] is a 32-bit two's complement integer.  Values are kept in
      [Z]; every arithmetic operation of the source is followed by
      [int_wrap], the wrap-around of the usual targets (the C++ standard
      leaves signed overflow undefined).  Conversions to [uint32_t] reduce
      modulo 2^32.
    - [std::byte] and [uint8_t] are [Byte.byte].
    - Header structures are packed (14 and 40 bytes, as the source comments
      state) and stored little-endian.
    - A computation that constructs a container of negative size or that
      indexes a buffer out of its bounds ends in [Fault]: in C++ the former
      throws [std::length_error], the latter is an invalid memory access.
    - Memory is unbounded: an allocation of a non-negative size succeeds.
      On a machine such an allocation can throw [std::bad_alloc] instead;
      a result [Done] is that of the runs whose allocations succeed. *)

From Stdlib Require Import ZArith List Bool Lia.
From Stdlib Require Import Strings.Byte.
From Stdlib Require Strings.String.
Import String.StringSyntax.
From Stdlib Require Strings.Ascii.
Import Ascii.AsciiSyntax.
Delimit Scope string_scope with string.
Delimit Scope char_scope with char.
Import ListNotations.
Local Open Scope Z_scope.

(** ** Outcomes of a computation *)

Inductive outcome (A : Type) : Type :=
| Done (a : A)
| Fault.
Arguments Done {A} a.
Arguments Fault {A}.

Definition obind {A B : Type} (c : outcome A) (k : A -> outcome B) : outcome B :=
  match c with
  | Done a => k a
  | Fault => Fault
  end.

Notation "x <- c ;; k" := (obind c (fun x => k))
  (at level 61, c at next level, right associativity).

(** ** Machine integers *)

Definition INT_MAX : Z := 2147483647.
Definition INT_MIN : Z := -2147483648.

Definition int_wrap (z : Z) : Z := (z + 2147483648) mod 4294967296 - 2147483648.
Definition uint32_wrap (z : Z) : Z := z mod 4294967296.

Definition is_int (z : Z) : Prop := INT_MIN <= z <= INT_MAX.

(** [a * b], [a + b] and [a / b] on [int]; division truncates towards zero. *)
Definition int_mul (a b : Z) : Z := int_wrap (a * b).
Definition int_add (a b : Z) : Z := int_wrap (a + b).
Definition int_div (a b : Z) : Z := int_wrap (Z.quot a b).

(** ** Bytes *)

Definition Z_of_byte (c : byte) : Z := Z.of_N (Byte.to_N c).

Definition byte_of_Z (z : Z) : byte :=
  match Byte.of_N (Z.to_N (z mod 256)) with
  | Some c => c
  | None => x00
  end.

(** [le_bytes n z]: the [n] bytes of [z] (two's complement), least
    significant first. *)
Fixpoint le_bytes (n : nat) (z : Z) : list byte :=
  match n with
  | O => []
  | S n' => byte_of_Z z :: le_bytes n' (z / 256)
  end.

(** The unsigned value of a little-endian byte sequence. *)
Fixpoint le_value (bs : list byte) : Z :=
  match bs with
  | [] => 0
  | c :: bs' => Z_of_byte c + 256 * le_value bs'
  end.

(** Reading a 4-byte field as [int32_t]. *)
Definition le_int32 (bs : list byte) : Z := int_wrap (le_value bs).

(** ** Row stride *)

(** [static int GetBMPStride(int w)]:
    [return padding * ((w * size_of_pixel + 3) / 4);] *)
Definition size_of_pixel : Z := 3.
Definition padding : Z := 4.

Definition GetBMPStride (w : Z) : Z :=
  int_mul padding (int_div (int_add (int_mul w size_of_pixel) 3) 4).

(** ** Checked containers *)

(** [std::vector<T> v(n, fill)]: a negative [n], converted to [size_t],
    exceeds [max_size()] and the constructor throws. *)
Definition vector_new {A : Type} (n : Z) (fill : A) : outcome (list A) :=
  if n <? 0 then Fault else Done (repeat fill (Z.to_nat n)).

(** [v[i]] as an rvalue. *)
Definition vec_get {A : Type} (v : list A) (i : Z) : outcome A :=
  if i <? 0 then Fault
  else match nth_error v (Z.to_nat i) with
       | Some a => Done a
       | None => Fault
       end.

Fixpoint list_update {A : Type} (v : list A) (i : nat) (a : A) : list A :=
  match v, i with
  | [], _ => []
  | _ :: v', O => a :: v'
  | c :: v', S i' => c :: list_update v' i' a
  end.

(** [v[i] = a]. *)
Definition vec_set {A : Type} (v : list A) (i : Z) (a : A) : outcome (list A) :=
  if (i <? 0) || (Z.of_nat (length v) <=? i) then Fault
  else Done (list_update v (Z.to_nat i) a).

(** ** Pixel buffer *)

(** Modelled from the spec: [img_lib::Color] of img_lib.h, which is not among
    the sources.  A pixel is a triple of 8-bit channels (red, green, blue). *)
Record Color : Type := mkColor { r : byte; g : byte; b : byte }.

(** Modelled from the spec: [Color::Black()], all channels zero. *)
Definition Black : Color := mkColor x00 x00 x00.

(** Modelled from the spec: [img_lib::Image] of img_lib.h, which is not among
    the sources: a width, a height and the pixels, row by row. *)
Record Image : Type := mkImage {
  GetWidth : Z;
  GetHeight : Z;
  pixels : list (list Color)
}.

(** The invariant of the pixel buffer: there are exactly [height] rows and
    every row has exactly [width] pixels; both are non-negative [int]s. *)
Definition Image_wf (image : Image) : Prop :=
  0 <= GetWidth image <= INT_MAX /\
  0 <= GetHeight image <= INT_MAX /\
  length (pixels image) = Z.to_nat (GetHeight image) /\
  Forall (fun line => length line = Z.to_nat (GetWidth image)) (pixels image).

(** Modelled from the spec: the default-constructed [Image{}], the value
    that stands for "no image". *)
Definition Image_empty : Image := mkImage 0 0 [].

(** Modelled from the spec: [Image(w, h, fill)], a buffer of [w] columns and
    [h] rows filled with [fill]; the dimensions of a buffer are
    non-negative, so a negative one cannot be allocated. *)
Definition Image_new (w h : Z) (fill : Color) : outcome Image :=
  if (w <? 0) || (h <? 0) then Fault
  else Done (mkImage w h (repeat (repeat fill (Z.to_nat w)) (Z.to_nat h))).

(** Modelled from the spec: [image.GetLine(y)], access to row [y]. *)
Definition GetLine (image : Image) (y : Z) : outcome (list Color) :=
  vec_get (pixels image) y.

(** Writing through the pointer returned by the non-const [GetLine(y)]
    changes row [y] of the image. *)
Definition SetLine (image : Image) (y : Z) (line : list Color) : outcome Image :=
  rows <- vec_set (pixels image) y line ;;
  Done (mkImage (GetWidth image) (GetHeight image) rows).

(** The pixel at column [x] of row [y], when there is one. *)
Definition GetPixel (image : Image) (x y : nat) : option Color :=
  match nth_error (pixels image) y with
  | Some line => nth_error line x
  | None => None
  end.

(** ** Headers *)

Record BitmapFileHeader : Type := mkFileHeader {
  bfType : Z;          (* uint16_t *)
  bfSize : Z;          (* uint32_t *)
  bfReserved : Z;      (* uint32_t *)
  bfOffBits : Z        (* uint32_t *)
}.

Record BitmapInfoHeader : Type := mkInfoHeader {
  biSize : Z;          (* uint32_t *)
  biWidth : Z;         (* int32_t *)
  biHeight : Z;        (* int32_t *)
  biPlanes : Z;        (* uint16_t *)
  biBitCount : Z;      (* uint16_t *)
  biCompression : Z;   (* uint32_t *)
  biSizeImage : Z;     (* uint32_t *)
  biXPelsPerMeter : Z; (* int32_t *)
  biYPelsPerMeter : Z; (* int32_t *)
  biClrUsed : Z;       (* uint32_t *)
  biClrImportant : Z   (* uint32_t *)
}.

Definition sizeof_file_header : Z := 14.
Definition sizeof_info_header : Z := 40.

(** The default member initializers of the two structures. *)
Definition default_file_header : BitmapFileHeader :=
  mkFileHeader 0x4D42 0 0 54.

Definition default_info_header : BitmapInfoHeader :=
  mkInfoHeader 40 0 0 1 24 0 0 11811 11811 0 0x1000000.

(** The object representation of the packed structures. *)
Definition file_header_bytes (h : BitmapFileHeader) : list byte :=
  le_bytes 2 (bfType h) ++ le_bytes 4 (bfSize h) ++
  le_bytes 4 (bfReserved h) ++ le_bytes 4 (bfOffBits h).

Definition info_header_bytes (h : BitmapInfoHeader) : list byte :=
  le_bytes 4 (biSize h) ++ le_bytes 4 (biWidth h) ++ le_bytes 4 (biHeight h) ++
  le_bytes 2 (biPlanes h) ++ le_bytes 2 (biBitCount h) ++
  le_bytes 4 (biCompression h) ++ le_bytes 4 (biSizeImage h) ++
  le_bytes 4 (biXPelsPerMeter h) ++ le_bytes 4 (biYPelsPerMeter h) ++
  le_bytes 4 (biClrUsed h) ++ le_bytes 4 (biClrImportant h).

(** [field off len bs]: the [len] bytes of [bs] from offset [off]. *)
Definition field (off len : nat) (bs : list byte) : list byte :=
  firstn len (skipn off bs).

(** Reading the structures back from their object representation. *)
Definition file_header_of_bytes (bs : list byte) : BitmapFileHeader :=
  mkFileHeader (le_value (field 0 2 bs)) (le_value (field 2 4 bs))
               (le_value (field 6 4 bs)) (le_value (field 10 4 bs)).

Definition info_header_of_bytes (bs : list byte) : BitmapInfoHeader :=
  mkInfoHeader (le_value (field 0 4 bs)) (le_int32 (field 4 4 bs))
               (le_int32 (field 8 4 bs)) (le_value (field 12 2 bs))
               (le_value (field 14 2 bs)) (le_value (field 16 4 bs))
               (le_value (field 20 4 bs)) (le_int32 (field 24 4 bs))
               (le_int32 (field 28 4 bs)) (le_value (field 32 4 bs))
               (le_value (field 36 4 bs)).

(** ** Byte sinks and sources *)

(** What stands behind a path opened for writing: whether it can be opened,
    and how many bytes it accepts ([None]: any number). *)
Record Sink : Type := mkSink {
  sink_opens : bool;
  sink_room : option nat
}.

(** [std::ofstream]: the bytes written so far, the state that [good()]
    reports, and the room left in the sink. *)
Record ofstream : Type := mkOfstream {
  out_data : list byte;
  out_good : bool;
  out_room : option nat
}.

Definition ofstream_open (file : Sink) : ofstream :=
  mkOfstream [] (sink_opens file) (sink_room file).

(** [out.write(p, n)] with the [n] bytes [bs]: nothing happens on a stream
    that is not good; a write that does not fit stores what fits and leaves
    the stream failed.  The stream is taken as unbuffered: a write reaches
    the sink at once.  [std::ofstream] buffers, so for a sink with limited
    room the state that [good()] reports may lag behind; a sink that
    cannot be opened, and a sink that never fills up, behave as here. *)
Definition ofstream_write (out : ofstream) (bs : list byte) : ofstream :=
  if out_good out then
    match out_room out with
    | None => mkOfstream (out_data out ++ bs) true None
    | Some k =>
        if (length bs <=? k)%nat
        then mkOfstream (out_data out ++ bs) true (Some (k - length bs)%nat)
        else mkOfstream (out_data out ++ firstn k bs) false (Some O)
    end
  else out.

(** [std::ifstream]: the content of the file, the read position, the state
    that [operator!] tests and the count reported by [gcount()]. *)
Record ifstream : Type := mkIfstream {
  in_data : list byte;
  in_pos : nat;
  in_good : bool;
  in_gcount : Z
}.

(** Opening a path for reading; [None] is a path that cannot be opened. *)
Definition ifstream_open (file : option (list byte)) : ifstream :=
  match file with
  | Some data => mkIfstream data O true 0
  | None => mkIfstream [] O false 0
  end.

(** [in.read(p, n)]: extracts up to [n] bytes; when fewer are available the
    stream fails.  Returns the stream and the bytes extracted. *)
Definition ifstream_read (s : ifstream) (n : Z) : ifstream * list byte :=
  if in_good s then
    let chunk := firstn (Z.to_nat n) (skipn (in_pos s) (in_data s)) in
    let count := Z.of_nat (length chunk) in
    (mkIfstream (in_data s) (in_pos s + length chunk)%nat (count =? n) count,
     chunk)
  else (mkIfstream (in_data s) (in_pos s) false 0, []).

(** [in.seekg(off, ios::beg)] on a good stream moves the read position;
    a position past the end is accepted and later reads find nothing. *)
Definition ifstream_seekg (s : ifstream) (off : Z) : ifstream :=
  if in_good s then
    if off <? 0
    then mkIfstream (in_data s) (in_pos s) false (in_gcount s)
    else mkIfstream (in_data s) (Z.to_nat off) true (in_gcount s)
  else s.

(** The bytes extracted by [read] land at the start of the buffer. *)
Definition overwrite {A : Type} (buf chunk : list A) : list A :=
  chunk ++ skipn (length chunk) buf.

(** ** SaveBMP *)

(** The inner loop of [SaveBMP]:
    [for (int x = 0; x < width; ++x) { row[3*x+0] = line[x].b; ... }],
    with [n] iterations left and the loop variable at [x]. *)
Fixpoint save_line (n : nat) (x : Z) (line : list Color) (row : list byte)
  : outcome (list byte) :=
  match n with
  | O => Done row
  | S n' =>
      px <- vec_get line x ;;
      row1 <- vec_set row (int_add (int_mul 3 x) 0) (b px) ;;
      row2 <- vec_set row1 (int_add (int_mul 3 x) 1) (g px) ;;
      row3 <- vec_set row2 (int_add (int_mul 3 x) 2) (r px) ;;
      save_line n' (int_add x 1) line row3
  end.

(** The outer loop of [SaveBMP]:
    [for (int y = height - 1; y >= 0; --y)], with [n] iterations left, that
    is with the loop variable at [n - 1]. *)
Fixpoint save_rows (n : nat) (image : Image) (width : Z) (row : list byte)
  (out : ofstream) : ofstream * outcome unit :=
  match n with
  | O => (out, Done tt)
  | S y =>
      match (line <- GetLine image (Z.of_nat y) ;;
             save_line (Z.to_nat width) 0 line row) with
      | Fault => (out, Fault)
      | Done row' => save_rows y image width row' (ofstream_write out row')
      end
  end.

(** The two headers as [SaveBMP] fills them in. *)
Definition SaveBMP_file_header (image : Image) : BitmapFileHeader :=
  let width := GetWidth image in
  let height := GetHeight image in
  let stride := GetBMPStride width in
  let image_size := uint32_wrap (int_mul stride height) in
  mkFileHeader (bfType default_file_header)
    (uint32_wrap (sizeof_file_header + sizeof_info_header + image_size))
    (bfReserved default_file_header)
    (bfOffBits default_file_header).

Definition SaveBMP_info_header (image : Image) : BitmapInfoHeader :=
  let width := GetWidth image in
  let height := GetHeight image in
  let stride := GetBMPStride width in
  let image_size := uint32_wrap (int_mul stride height) in
  mkInfoHeader (biSize default_info_header) width height
    (biPlanes default_info_header) (biBitCount default_info_header)
    (biCompression default_info_header) image_size
    (biXPelsPerMeter default_info_header) (biYPelsPerMeter default_info_header)
    (biClrUsed default_info_header) (biClrImportant default_info_header).

(** [bool SaveBMP(const Path& file, const Image& image)]: the final state of
    the stream and the value returned. *)
Definition SaveBMP (file : Sink) (image : Image) : ofstream * outcome bool :=
  let width := GetWidth image in
  let height := GetHeight image in
  let stride := GetBMPStride width in
  let file_header := SaveBMP_file_header image in
  let info_header := SaveBMP_info_header image in
  let out := ofstream_open file in
  let out := ofstream_write out (file_header_bytes file_header) in
  let out := ofstream_write out (info_header_bytes info_header) in
  match vector_new stride x00 with
  | Fault => (out, Fault)
  | Done row =>
      match save_rows (Z.to_nat height) image width row out with
      | (out', Fault) => (out', Fault)
      | (out', Done _) => (out', Done (out_good out'))
      end
  end.

(** ** LoadBMP *)

(** [line[x].b = c], [line[x].g = c] and [line[x].r = c]. *)
Definition set_b (line : list Color) (x : Z) (c : byte) : outcome (list Color) :=
  px <- vec_get line x ;; vec_set line x (mkColor (r px) (g px) c).

Definition set_g (line : list Color) (x : Z) (c : byte) : outcome (list Color) :=
  px <- vec_get line x ;; vec_set line x (mkColor (r px) c (b px)).

Definition set_r (line : list Color) (x : Z) (c : byte) : outcome (list Color) :=
  px <- vec_get line x ;; vec_set line x (mkColor c (g px) (b px)).

(** The inner loop of [LoadBMP]:
    [for (int x = 0; x < width; ++x) { line[x].b = row[3*x+0]; ... }]. *)
Fixpoint load_line (n : nat) (x : Z) (row : list byte) (line : list Color)
  : outcome (list Color) :=
  match n with
  | O => Done line
  | S n' =>
      cb <- vec_get row (int_add (int_mul 3 x) 0) ;;
      line1 <- set_b line x cb ;;
      cg <- vec_get row (int_add (int_mul 3 x) 1) ;;
      line2 <- set_g line1 x cg ;;
      cr <- vec_get row (int_add (int_mul 3 x) 2) ;;
      line3 <- set_r line2 x cr ;;
      load_line n' (int_add x 1) row line3
  end.

(** The outer loop of [LoadBMP]:
    [for (int y = height - 1; y >= 0; --y)], with [n] iterations left. *)
Fixpoint load_rows (n : nat) (s : ifstream) (stride width : Z)
  (row : list byte) (image : Image) : outcome Image :=
  match n with
  | O => Done image
  | S y =>
      let (s', chunk) := ifstream_read s stride in
      let row' := overwrite row chunk in
      if negb (in_gcount s' =? stride) then Done Image_empty
      else
        line <- GetLine image (Z.of_nat y) ;;
        line' <- load_line (Z.to_nat width) 0 row' line ;;
        image' <- SetLine image (Z.of_nat y) line' ;;
        load_rows y s' stride width row' image'
  end.

(** The format check of [LoadBMP]; [true] when the headers are rejected. *)
Definition unsupported (file_header : BitmapFileHeader)
  (info_header : BitmapInfoHeader) : bool :=
  negb (bfType file_header =? 0x4D42) ||
  negb (bfOffBits file_header =? 54) ||
  negb (biSize info_header =? 40) ||
  negb (biPlanes info_header =? 1) ||
  negb (biBitCount info_header =? 24) ||
  negb (biCompression info_header =? 0) ||
  (biWidth info_header <=? 0) || (biHeight info_header <=? 0).

(** [Image LoadBMP(const Path& file)]. *)
Definition LoadBMP (file : option (list byte)) : outcome Image :=
  let s := ifstream_open file in
  if negb (in_good s) then Done Image_empty
  else
    let (s, fh) := ifstream_read s sizeof_file_header in
    if negb (in_good s) then Done Image_empty
    else
      let (s, ih) := ifstream_read s sizeof_info_header in
      if negb (in_good s) then Done Image_empty
      else
        let file_header := file_header_of_bytes fh in
        let info_header := info_header_of_bytes ih in
        if unsupported file_header info_header then Done Image_empty
        else
          let width := biWidth info_header in
          let height := biHeight info_header in
          let stride := GetBMPStride width in
          image <- Image_new (int_div stride 3) height Black ;;
          row <- vector_new stride x00 ;;
          let s := ifstream_seekg s (bfOffBits file_header) in
          load_rows (Z.to_nat height) s stride width row image.

(** ** The layout in the words of the specification *)

(** A pixel on the wire: blue, green, red. *)
Definition bgr (px : Color) : list byte := [b px; g px; r px].

(** One encoded row: the pixels left to right, then [stride - 3 * width]
    zero bytes. *)
Definition encode_row (stride width : Z) (line : list Color) : list byte :=
  flat_map bgr line ++ repeat x00 (Z.to_nat (stride - 3 * width)).

(** The pixel data: the rows of the image, the last one first. *)
Definition encode_rows (image : Image) : list byte :=
  flat_map (encode_row (GetBMPStride (GetWidth image)) (GetWidth image))
           (rev (pixels image)).

(** The two headers, 54 bytes. *)
Definition encode_headers (image : Image) : list byte :=
  file_header_bytes (SaveBMP_file_header image) ++
  info_header_bytes (SaveBMP_info_header image).

(** The stream a sink is left in once the bytes [bs] have been sent to it. *)
Definition ofstream_of (file : Sink) (bs : list byte) : ofstream :=
  if sink_opens file then
    match sink_room file with
    | None => mkOfstream bs true None
    | Some k =>
        if (length bs <=? k)%nat
        then mkOfstream bs true (Some (k - length bs)%nat)
        else mkOfstream (firstn k bs) false (Some O)
    end
  else mkOfstream [] false (sink_room file).

(** Pixels off the wire: every three bytes are blue, green, red. *)
Fixpoint decode_pixels (bs : list byte) : list Color :=
  match bs with
  | cb :: cg :: cr :: bs' => mkColor cr cg cb :: decode_pixels bs'
  | _ => []
  end.

(** One decoded row of a buffer of [columns] columns: the first
    [3 * width] bytes of the encoded row as pixels; the columns from
    [width] on stay black. *)
Definition decode_row (columns width : Z) (chunk : list byte) : list Color :=
  decode_pixels (firstn (Z.to_nat (3 * width)) chunk) ++
  repeat Black (Z.to_nat (columns - width)).

(** The first [n] consecutive pieces of [size] bytes. *)
Fixpoint chunks (n size : nat) (bs : list byte) : list (list byte) :=
  match n with
  | O => []
  | S n' => firstn size bs :: chunks n' size (skipn size bs)
  end.

(** The headers a file declares, and the bytes that follow them. *)
Definition declared_file_header (data : list byte) : BitmapFileHeader :=
  file_header_of_bytes (field 0 14 data).

Definition declared_info_header (data : list byte) : BitmapInfoHeader :=
  info_header_of_bytes (field 14 40 data).

Definition declared_width (data : list byte) : Z :=
  biWidth (declared_info_header data).

Definition declared_height (data : list byte) : Z :=
  biHeight (declared_info_header data).

Definition pixel_data (data : list byte) : list byte := skipn 54 data.

(** A file whose two headers are complete and pass the format check. *)
Definition headers_valid (data : list byte) : bool :=
  (54 <=? length data)%nat &&
  negb (unsupported (declared_file_header data) (declared_info_header data)).

(** The image a file with valid headers and enough pixel data decodes to:
    [stride / 3] columns, the declared number of rows, the first encoded
    row at the bottom. *)
Definition decode_image (data : list byte) : Image :=
  let width := declared_width data in
  let height := declared_height data in
  let stride := GetBMPStride width in
  mkImage (stride / 3) height
    (rev (map (decode_row (stride / 3) width)
              (chunks (Z.to_nat height) (Z.to_nat stride) (pixel_data data)))).

(** The image with every row extended by black pixels to [stride / 3]
    columns. *)
Definition widened (image : Image) : Image :=
  let columns := GetBMPStride (GetWidth image) / 3 in
  mkImage columns (GetHeight image)
    (map (fun line => line ++ repeat Black (Z.to_nat (columns - GetWidth image)))
         (pixels image)).

(** The largest width whose stride is computed without overflow:
    [3 * w + 3 <= INT_MAX]. *)
Definition MAX_WIDTH : Z := 715827881.

(** ** Concrete inputs *)

Definition rgb (cr cg cb : Z) : Color :=
  mkColor (byte_of_Z cr) (byte_of_Z cg) (byte_of_Z cb).

(** A sink that opens and never fills up. *)
Definition plain_file : Sink := mkSink true None.

(** The 2x2 image of the specification's concrete scenario. *)
Definition image_2x2 : Image :=
  mkImage 2 2 [[rgb 255 0 0; rgb 0 255 0]; [rgb 0 0 255; rgb 255 255 255]].

(** An image of three columns and one row. *)
Definition image_3x1 : Image :=
  mkImage 3 1 [[rgb 1 2 3; rgb 4 5 6; rgb 7 8 9]].

(** The 66 bytes [SaveBMP] writes for [image_3x1]. *)
Definition file_3x1 : list byte := out_data (fst (SaveBMP plain_file image_3x1)).

(** One row of [MAX_WIDTH + 1] black pixels. *)
Definition image_wide : Image :=
  mkImage 715827882 1 [repeat Black (Z.to_nat 715827882)].


(** The two headers of a well-formed 24-bit file that declares the given
    width and height. *)
Definition headers_for (width height : Z) : list byte :=
  file_header_bytes default_file_header ++
  info_header_bytes
    (mkInfoHeader 40 width height 1 24 0 0 11811 11811 0 0x1000000).

(** A 54-byte file: valid headers that declare one row of [MAX_WIDTH + 1]
    pixels, and no pixel data. *)
Definition file_wide_header : list byte := headers_for 715827882 1.

(** A 58-byte file: valid headers that declare two rows of 1431655766
    pixels, followed by four bytes of pixel data. *)
Definition file_short_rows : list byte :=
  headers_for 1431655766 2 ++ [x01; x02; x03; x04].

(** What [LoadBMP] returns for [file_3x1]: four columns. *)
Definition image_3x1_loaded : Image :=
  mkImage 4 1 [[rgb 1 2 3; rgb 4 5 6; rgb 7 8 9; Black]].

(** A 102-byte file: valid headers that declare 7 columns and 2 rows,
    followed by two rows of 24 bytes. *)
Definition file_7x2 : list byte := headers_for 7 2 ++ repeat xff 48.

(** [file_3x1] with the reserved field (bytes 6..9) set to 1, 2, 3, 4. *)
Definition file_3x1_reserved : list byte :=
  firstn 6 file_3x1 ++ [x01; x02; x03; x04] ++ skipn 10 file_3x1.

(** ** The converter (ImgConverter/main.cpp) *)

Definition Path : Type := String.string.

(** [enum Format]. *)
Inductive Format : Type := JPEG | PPM | UNKNOWN | BMP.

(** [class ImageFormatInterface]: the two virtual functions.  A path is
    represented by what stands behind it: the sink it opens for writing,
    the bytes it holds for reading. *)
Record ImageFormatInterface : Type := mkInterface {
  SaveImage : Sink -> Image -> ofstream * outcome bool;
  LoadImage : option (list byte) -> outcome Image
}.

(** [class ImageBMP]. *)
Definition ImageBMP : ImageFormatInterface := mkInterface SaveBMP LoadBMP.

(** Modelled from the spec: [Image::operator bool] of img_lib.h, which is
    not among the sources; the empty buffer (width or height 0) stands for
    "no image". *)
Definition Image_bool (image : Image) : bool :=
  (0 <? GetWidth image) && (0 <? GetHeight image).

(** The files the program sees: what a path holds when opened for reading
    ([None]: it cannot be opened) and the sink it opens for writing. *)
Record FileSystem : Type := mkFileSystem {
  fs_source : Path -> option (list byte);
  fs_sink : Path -> Sink
}.

(** One run of the program: the lines sent to [cerr] and [cout], the stream
    of the output path when it was opened, and the exit code ([Fault]: the
    run ended in a fault of a codec). *)
Record Run : Type := mkRun {
  run_cerr : list String.string;
  run_cout : list String.string;
  run_output : option ofstream;
  run_exit : outcome Z
}.

Section Converter.

(** [std::filesystem::path::extension], and the PPM and JPEG codecs of the
    image library, which are not among the sources. *)
Variable extension : Path -> String.string.
Variable LoadPPM : option (list byte) -> outcome Image.
Variable SavePPM : Sink -> Image -> ofstream * outcome bool.
Variable LoadJPEG : option (list byte) -> outcome Image.
Variable SaveJPEG : Sink -> Image -> ofstream * outcome bool.

(** [class ImagePPM] and [class ImageJPEG]. *)
Definition ImagePPM : ImageFormatInterface := mkInterface SavePPM LoadPPM.
Definition ImageJPEG : ImageFormatInterface := mkInterface SaveJPEG LoadJPEG.

(** [Format GetFormatByExtension(const img_lib::Path& input_file)]. *)
Definition GetFormatByExtension (input_file : Path) : Format :=
  let ext := extension input_file in
  if String.eqb ext ".jpg" || String.eqb ext ".jpeg" then JPEG
  else if String.eqb ext ".ppm" then PPM
  else if String.eqb ext ".bmp" then BMP
  else UNKNOWN.

(** [ImageFormatInterface* GetFormatInterface(const img_lib::Path& path)];
    [None] is the null pointer. *)
Definition GetFormatInterface (path : Path) : option ImageFormatInterface :=
  match GetFormatByExtension path with
  | JPEG => Some ImageJPEG
  | PPM => Some ImagePPM
  | BMP => Some ImageBMP
  | UNKNOWN => None
  end.

(** [int main(int argc, const char** argv)], with [argv[0]] as [program]
    and the remaining arguments as [args]. *)
Definition main (fs : FileSystem) (program : Path) (args : list Path) : Run :=
  match args with
  | [in_path; out_path] =>
      match GetFormatInterface in_path with
      | None => mkRun ["Unknown format of the input file"%string] [] None (Done 2)
      | Some in_format =>
          match GetFormatInterface out_path with
          | None => mkRun ["Unknown format of the output file"%string] [] None (Done 3)
          | Some out_format =>
              match LoadImage in_format (fs_source fs in_path) with
              | Fault => mkRun [] [] None Fault
              | Done image =>
                  if negb (Image_bool image)
                  then mkRun ["Loading failed"%string] [] None (Done 4)
                  else
                    match SaveImage out_format (fs_sink fs out_path) image with
                    | (out, Fault) => mkRun [] [] (Some out) Fault
                    | (out, Done false) =>
                        mkRun ["Saving failed"%string] [] (Some out) (Done 5)
                    | (out, Done true) =>
                        mkRun [] ["Successfully converted"%string] (Some out) (Done 0)
                    end
              end
          end
      end
  | _ =>
      mkRun [String.append "Usage: "%string
               (String.append program " <in_file> <out_file>"%string)]
            [] None (Done 1)
  end.

End Converter.

(** [file_3x1] with other values in the fields that say nothing about the
    layout: file size and reserved (bytes 2..9), image size, resolution and
    colour counts (bytes 34..53). *)
Definition file_3x1_cosmetic : list byte :=
  firstn 2 file_3x1 ++ repeat xff 8 ++ firstn 24 (skipn 10 file_3x1) ++
  repeat xff 20 ++ skipn 54 file_3x1.

(** The extensions the converter knows. *)
Definition known_extensions : list String.string :=
  [".jpg"%string; ".jpeg"%string; ".ppm"%string; ".bmp"%string].

(** Stand-ins for the parts of the converter that are not among the
    sources, for concrete runs: the extension of a path is its part from
    the last period on (as [std::filesystem::path::extension] gives it for
    a plain file name that does not begin with a period), the PPM and JPEG
    codecs load nothing and save nothing. *)
Fixpoint from_last_period (path : Path) : option String.string :=
  match path with
  | String.EmptyString => None
  | String.String c rest =>
      match from_last_period rest with
      | Some ext => Some ext
      | None => if Ascii.eqb c "."%char then Some path else None
      end
  end.

Definition plain_extension (path : Path) : String.string :=
  match from_last_period path with
  | Some ext => ext
  | None => String.EmptyString
  end.

Definition no_load (file : option (list byte)) : outcome Image :=
  Done Image_empty.

Definition no_save (file : Sink) (image : Image) : ofstream * outcome bool :=
  (ofstream_open file, Done false).

Definition bmp_only_main : FileSystem -> Path -> list Path -> Run :=
  main plain_extension no_load no_save no_load no_save.

(** A file system in which every path holds [file_3x1] and opens a sink
    that never fills up. *)
Definition fs_3x1 : FileSystem :=
  mkFileSystem (fun _ => Some file_3x1) (fun _ => plain_file).

(** The 54 bytes of a file without pixel data: signature "BM", file size
    54, reserved 0, offset 54; info header size 40, width 0, height 0,
    1 plane, 24 bits, compression 0, image size 0, 11811 pixels per meter
    twice, 0 colours used, 0x1000000 important colours. *)
Definition empty_bmp_file : list byte :=
  [x42; x4d;  x36; x00; x00; x00;  x00; x00; x00; x00;  x36; x00; x00; x00;
   x28; x00; x00; x00;  x00; x00; x00; x00;  x00; x00; x00; x00;
   x01; x00;  x18; x00;  x00; x00; x00; x00;  x00; x00; x00; x00;
   x23; x2e; x00; x00;  x23; x2e; x00; x00;
   x00; x00; x00; x00;  x00; x00; x00; x01].

(** * Properties *)

(** ** Machine arithmetic *)

Lemma int_wrap_id (z : Z) : is_int z -> int_wrap z = z.
Proof.
  unfold is_int, INT_MIN, INT_MAX, int_wrap. intros Hz.
  rewrite Z.mod_small; lia.
Qed.

Lemma int_wrap_is_int (z : Z) : is_int (int_wrap z).
Proof.
  unfold is_int, INT_MIN, INT_MAX, int_wrap.
  pose proof (Z.mod_pos_bound (z + 2147483648) 4294967296 ltac:(lia)). lia.
Qed.

Lemma uint32_of_int (z : Z) : uint32_wrap (int_wrap z) = z mod 4294967296.
Proof.
  unfold uint32_wrap, int_wrap.
  rewrite <- Zminus_mod_idemp_l.
  replace ((z + 2147483648) mod 4294967296 mod 4294967296)
    with ((z + 2147483648) mod 4294967296) by (rewrite Z.mod_mod; lia).
  rewrite Zminus_mod_idemp_l. f_equal. lia.
Qed.

Lemma GetBMPStride_is_int (w : Z) : is_int (GetBMPStride w).
Proof. unfold GetBMPStride, int_mul. apply int_wrap_is_int. Qed.

(** Within [0 .. MAX_WIDTH] no operation of [GetBMPStride] overflows. *)
Lemma GetBMPStride_in_range (w : Z) :
  0 <= w <= MAX_WIDTH -> GetBMPStride w = 4 * ((3 * w + 3) / 4).
Proof.
  unfold MAX_WIDTH. intros Hw.
  unfold GetBMPStride, int_mul, int_add, int_div, size_of_pixel, padding.
  rewrite (int_wrap_id (w * 3)) by (unfold is_int, INT_MIN, INT_MAX; lia).
  rewrite (int_wrap_id (w * 3 + 3)) by (unfold is_int, INT_MIN, INT_MAX; lia).
  rewrite Z.quot_div_nonneg by lia.
  replace (w * 3 + 3) with (3 * w + 3) by lia.
  pose proof (Z.div_pos (3 * w + 3) 4 ltac:(lia) ltac:(lia)) as Hq0.
  pose proof (Z.mul_div_le (3 * w + 3) 4 ltac:(lia)) as Hq1.
  rewrite (int_wrap_id ((3 * w + 3) / 4))
    by (unfold is_int, INT_MIN, INT_MAX; lia).
  apply int_wrap_id. unfold is_int, INT_MIN, INT_MAX. lia.
Qed.

(** The bounds of the stride in range: a multiple of 4, between [3 * w] and
    [3 * w + 3]. *)
Lemma GetBMPStride_bounds (w : Z) :
  0 <= w <= MAX_WIDTH ->
  GetBMPStride w mod 4 = 0 /\ 3 * w <= GetBMPStride w <= 3 * w + 3.
Proof.
  intros Hw. rewrite (GetBMPStride_in_range w Hw).
  split.
  - rewrite Z.mul_comm. apply Z.mod_mul. lia.
  - pose proof (Z.div_mod (3 * w + 3) 4 ltac:(lia)) as Hdm.
    pose proof (Z.mod_pos_bound (3 * w + 3) 4 ltac:(lia)) as Hm.
    lia.
Qed.

(** A stride that covers the row is a stride computed without overflow:
    beyond [MAX_WIDTH] the wrapped result falls short of [3 * w]. *)
Lemma GetBMPStride_covers (w : Z) :
  0 < w <= INT_MAX -> 3 * w <= GetBMPStride w -> w <= MAX_WIDTH.
Proof.
  unfold MAX_WIDTH, INT_MAX. intros Hw Hcov.
  destruct (Z_le_gt_dec w 715827881) as [Hle | Hgt]; [exact Hle | exfalso].
  pose proof (GetBMPStride_is_int w) as Hint.
  unfold is_int, INT_MIN, INT_MAX in Hint.
  assert (Hw3 : 3 * w <= 2147483647) by lia.
  assert (Hw' : w = 715827882) by lia.
  subst w. vm_compute in Hcov. apply Hcov. reflexivity.
Qed.

(** ** Row stride (C4) *)

(** C4, for the widths whose stride fits an [int]: for every width [w]
    with [0 <= w <= 715827881] (the widths for which [3 * w + 3] is at most
    [INT_MAX]) the computed stride is
    [4 * floor((3 * w + 3) / 4)], and for [w >= 1] in that range it is a
    multiple of 4, at least [3 * w], and exceeds [3 * w] by 0, 1, 2 or 3. *)
Theorem GetBMPStride_spec (w : Z) :
  0 <= w <= MAX_WIDTH ->
  GetBMPStride w = 4 * ((3 * w + 3) / 4) /\
  (1 <= w ->
   GetBMPStride w mod 4 = 0 /\
   3 * w <= GetBMPStride w /\
   In (GetBMPStride w - 3 * w) [0; 1; 2; 3]).
Proof.
  intros Hw. split; [apply GetBMPStride_in_range; exact Hw |].
  intros _. destruct (GetBMPStride_bounds w Hw) as [Hmod [Hlo Hhi]].
  split; [exact Hmod | split; [exact Hlo |]].
  assert (Hd : GetBMPStride w - 3 * w = 0 \/ GetBMPStride w - 3 * w = 1 \/
               GetBMPStride w - 3 * w = 2 \/ GetBMPStride w - 3 * w = 3) by lia.
  cbn [In]. lia.
Qed.

(** The widths the specification lists, and the two ends of the range. *)
Lemma GetBMPStride_spec_witness :
  (0 <= 101 <= MAX_WIDTH) /\
  GetBMPStride 101 = 4 * ((3 * 101 + 3) / 4) /\
  map GetBMPStride [0; 1; 2; 3; 4; 5; 100; 101; 715827881] =
  [0; 4; 8; 12; 12; 16; 300; 304; 2147483644].
Proof.
  split; [unfold MAX_WIDTH; lia |].
  split; [| reflexivity].
  apply (GetBMPStride_spec 101). unfold MAX_WIDTH. lia.
Defined.

(** C4 does not extend to every width: at width 715827882 the sum [3 * w + 3] exceeds
    [INT_MAX]; the stride that comes out is negative, neither the value of
    the formula nor at least [3 * w].  No [int] is the value of the formula
    there. *)
Lemma GetBMPStride_overflow :
  0 <= 715827882 /\
  GetBMPStride 715827882 = -2147483644 /\
  GetBMPStride 715827882 <> 4 * ((3 * 715827882 + 3) / 4) /\
  ~ 3 * 715827882 <= GetBMPStride 715827882 /\
  ~ is_int (4 * ((3 * 715827882 + 3) / 4)).
Proof.
  split; [lia |]. split; [reflexivity |].
  split; [vm_compute; discriminate |].
  split; [vm_compute; intros H; apply H; reflexivity |].
  unfold is_int, INT_MIN, INT_MAX. vm_compute. intros [_ H]. apply H. reflexivity.
Qed.

(** ** Bytes and little-endian fields *)

Lemma Z_of_byte_range (c : byte) : 0 <= Z_of_byte c < 256.
Proof.
  unfold Z_of_byte. pose proof (Byte.to_N_bounded c) as Hb.
  lia.
Qed.

Lemma Z_of_byte_of_Z (z : Z) : Z_of_byte (byte_of_Z z) = z mod 256.
Proof.
  unfold Z_of_byte, byte_of_Z.
  pose proof (Z.mod_pos_bound z 256 ltac:(lia)) as Hm.
  destruct (Byte.of_N (Z.to_N (z mod 256))) as [c |] eqn:Hc.
  - apply Byte.to_of_N in Hc. rewrite Hc. lia.
  - apply Byte.of_N_None_iff in Hc. lia.
Qed.

Lemma byte_of_Z_of_byte (c : byte) : byte_of_Z (Z_of_byte c) = c.
Proof.
  unfold byte_of_Z. pose proof (Z_of_byte_range c) as Hr.
  rewrite Z.mod_small by lia. unfold Z_of_byte.
  rewrite N2Z.id, Byte.of_to_N. reflexivity.
Qed.

Lemma le_bytes_length (n : nat) (z : Z) : length (le_bytes n z) = n.
Proof.
  revert z. induction n as [| n IH]; intros z; simpl; [reflexivity |].
  rewrite IH. reflexivity.
Qed.

Lemma le_value_le_bytes (n : nat) (z : Z) :
  le_value (le_bytes n z) = z mod 256 ^ Z.of_nat n.
Proof.
  revert z. induction n as [| n IH]; intros z.
  - simpl. rewrite Z.mod_1_r. reflexivity.
  - cbn [le_bytes le_value]. rewrite IH, Z_of_byte_of_Z.
    rewrite Nat2Z.inj_succ, Z.pow_succ_r by lia.
    rewrite Z.rem_mul_r by lia. reflexivity.
Qed.

Lemma file_header_bytes_length (h : BitmapFileHeader) :
  length (file_header_bytes h) = 14%nat.
Proof.
  unfold file_header_bytes. rewrite !length_app, !le_bytes_length. reflexivity.
Qed.

Lemma info_header_bytes_length (h : BitmapInfoHeader) :
  length (info_header_bytes h) = 40%nat.
Proof.
  unfold info_header_bytes. rewrite !length_app, !le_bytes_length. reflexivity.
Qed.

(** ** Streams *)

Lemma ofstream_open_of (file : Sink) : ofstream_open file = ofstream_of file [].
Proof.
  unfold ofstream_open, ofstream_of.
  destruct (sink_opens file); [| reflexivity].
  destruct (sink_room file) as [k |]; [| reflexivity].
  simpl. rewrite Nat.sub_0_r. reflexivity.
Qed.

(** Writing chunk after chunk is sending their concatenation. *)
Lemma ofstream_write_of (file : Sink) (xs ys : list byte) :
  ofstream_write (ofstream_of file xs) ys = ofstream_of file (xs ++ ys).
Proof.
  unfold ofstream_write, ofstream_of.
  destruct (sink_opens file); [| reflexivity].
  destruct (sink_room file) as [k |]; [| reflexivity].
  rewrite length_app.
  destruct (Nat.leb_spec (length xs) k) as [Hx | Hx]; cbn [out_good out_room out_data].
  - destruct (Nat.leb_spec (length ys) (k - length xs)) as [Hy | Hy].
    + destruct (Nat.leb_spec (length xs + length ys) k) as [_ | Hc]; [| lia].
      f_equal. f_equal. lia.
    + destruct (Nat.leb_spec (length xs + length ys) k) as [Hc | _]; [lia |].
      f_equal. rewrite firstn_app.
      rewrite (firstn_all2 xs) by lia. reflexivity.
  - destruct (Nat.leb_spec (length xs + length ys) k) as [Hc | _]; [lia |].
    f_equal. rewrite firstn_app.
    replace (k - length xs)%nat with O by lia. simpl. rewrite app_nil_r.
    reflexivity.
Qed.

Lemma ofstream_of_good (file : Sink) (bs : list byte) :
  sink_opens file = true ->
  match sink_room file with
  | None => True
  | Some k => (length bs <= k)%nat
  end ->
  out_data (ofstream_of file bs) = bs /\ out_good (ofstream_of file bs) = true.
Proof.
  unfold ofstream_of. intros -> Hroom.
  destruct (sink_room file) as [k |]; [| split; reflexivity].
  destruct (Nat.leb_spec (length bs) k) as [_ | Hc]; [split; reflexivity | lia].
Qed.

(** What a sink holds is always a prefix of what was sent. *)
Lemma ofstream_of_prefix (file : Sink) (bs : list byte) :
  exists k, out_data (ofstream_of file bs) = firstn k bs.
Proof.
  unfold ofstream_of.
  destruct (sink_opens file); [| exists O; reflexivity].
  destruct (sink_room file) as [k |].
  - destruct (length bs <=? k)%nat.
    + exists (length bs). simpl. rewrite firstn_all. reflexivity.
    + exists k. reflexivity.
  - exists (length bs). simpl. rewrite firstn_all. reflexivity.
Qed.

(** ** Checked accesses *)

Lemma vec_get_app {A : Type} (l1 l2 : list A) (a : A) (i : Z) :
  i = Z.of_nat (length l1) -> vec_get (l1 ++ a :: l2) i = Done a.
Proof.
  intros ->. unfold vec_get.
  destruct (Z.ltb_spec (Z.of_nat (length l1)) 0) as [Hc | _]; [lia |].
  rewrite Nat2Z.id, nth_error_app2 by lia.
  rewrite Nat.sub_diag. reflexivity.
Qed.

Lemma list_update_app {A : Type} (l1 l2 : list A) (a c : A) :
  list_update (l1 ++ a :: l2) (length l1) c = l1 ++ c :: l2.
Proof.
  induction l1 as [| d l1 IH]; simpl; [reflexivity |].
  rewrite IH. reflexivity.
Qed.

Lemma vec_set_app {A : Type} (l1 l2 : list A) (a c : A) (i : Z) :
  i = Z.of_nat (length l1) -> vec_set (l1 ++ a :: l2) i c = Done (l1 ++ c :: l2).
Proof.
  intros ->. unfold vec_set. rewrite length_app. cbn [length].
  destruct (Z.ltb_spec (Z.of_nat (length l1)) 0) as [Hc | _]; [lia |].
  destruct (Z.leb_spec (Z.of_nat (length l1 + S (length l2)))
              (Z.of_nat (length l1))) as [Hc | _]; [lia |].
  cbn [orb]. rewrite Nat2Z.id, list_update_app. reflexivity.
Qed.

Lemma firstn_snoc {A : Type} (l : list A) (n : nat) (a : A) :
  nth_error l n = Some a -> firstn (S n) l = firstn n l ++ [a].
Proof.
  revert n. induction l as [| c l IH]; intros [| n] Hn; try discriminate.
  - injection Hn as ->. reflexivity.
  - cbn [firstn app]. f_equal. apply IH. exact Hn.
Qed.

(** The index expressions [3 * x + k] of both inner loops, in range. *)
Lemma pixel_index (x k : Z) :
  0 <= x -> 0 <= k <= 2 -> 3 * x + 2 <= INT_MAX ->
  int_add (int_mul 3 x) k = 3 * x + k.
Proof.
  unfold INT_MAX. intros Hx Hk Hm. unfold int_add, int_mul.
  rewrite (int_wrap_id (3 * x)) by (unfold is_int, INT_MIN, INT_MAX; lia).
  apply int_wrap_id. unfold is_int, INT_MIN, INT_MAX. lia.
Qed.

Lemma next_column (x : Z) : 0 <= x < INT_MAX -> int_add x 1 = x + 1.
Proof.
  unfold INT_MAX. intros Hx. unfold int_add.
  apply int_wrap_id. unfold is_int, INT_MIN, INT_MAX. lia.
Qed.

(** ** SaveBMP: the rows *)

(** Side conditions on lengths of concatenations. *)
Ltac list_length := rewrite ?length_app; cbn [length] in *; lia.

Lemma flat_map_bgr_length (line : list Color) :
  length (flat_map bgr line) = (3 * length line)%nat.
Proof.
  induction line as [| px line IH]; simpl; [reflexivity |].
  rewrite IH. lia.
Qed.

(** The inner loop of [SaveBMP] from column [length done] on: the three
    bytes of every remaining pixel replace the bytes [mid] of the buffer;
    what lies before and after is kept. *)
Lemma save_line_app (rest done pre mid post : list _) :
  length pre = (3 * length done)%nat ->
  length mid = (3 * length rest)%nat ->
  3 * Z.of_nat (length done + length rest) <= INT_MAX ->
  save_line (length rest) (Z.of_nat (length done)) (done ++ rest)
            (pre ++ mid ++ post)
  = Done (pre ++ flat_map bgr rest ++ post).
Proof.
  revert done pre mid.
  induction rest as [| px rest IH]; intros done pre mid Hpre Hmid Hmax.
  - destruct mid; [reflexivity | discriminate].
  - destruct mid as [| m0 [| m1 [| m2 mid]]]; try list_length.
    cbn [length] in Hmid, Hmax. unfold INT_MAX in Hmax.
    cbn [save_line length].
    rewrite (vec_get_app done rest px) by reflexivity. cbn [obind].
    rewrite !pixel_index by (unfold INT_MAX; lia).
    cbn [app].
    rewrite (vec_set_app pre) by lia. cbn [obind].
    replace (pre ++ b px :: m1 :: m2 :: mid ++ post)
      with ((pre ++ [b px]) ++ m1 :: m2 :: mid ++ post)
      by (rewrite <- app_assoc; reflexivity).
    rewrite (vec_set_app (pre ++ [b px])) by list_length.
    cbn [obind].
    replace ((pre ++ [b px]) ++ g px :: m2 :: mid ++ post)
      with ((pre ++ [b px; g px]) ++ m2 :: mid ++ post)
      by (rewrite <- !app_assoc; reflexivity).
    rewrite (vec_set_app (pre ++ [b px; g px])) by list_length.
    cbn [obind].
    rewrite next_column by (unfold INT_MAX; lia).
    replace (Z.of_nat (length done) + 1) with (Z.of_nat (length (done ++ [px])))
      by list_length.
    replace (done ++ px :: rest) with ((done ++ [px]) ++ rest)
      by (rewrite <- app_assoc; reflexivity).
    replace ((pre ++ [b px; g px]) ++ r px :: mid ++ post)
      with ((pre ++ [b px; g px; r px]) ++ mid ++ post)
      by (rewrite <- !app_assoc; reflexivity).
    rewrite IH.
    + rewrite <- !app_assoc. reflexivity.
    + list_length.
    + lia.
    + unfold INT_MAX. list_length.
Qed.

(** One row: a buffer of [3 * width] bytes followed by the padding becomes
    the pixels of the line followed by the same padding. *)
Lemma save_line_row (line : list Color) (mid pad : list byte) :
  length mid = (3 * length line)%nat ->
  3 * Z.of_nat (length line) <= INT_MAX ->
  save_line (length line) 0 line (mid ++ pad) = Done (flat_map bgr line ++ pad).
Proof.
  intros Hmid Hmax.
  apply (save_line_app line [] [] mid pad); [reflexivity | exact Hmid |].
  simpl. exact Hmax.
Qed.

(** The outer loop of [SaveBMP] over the first [n] rows, the last of them
    first.  The buffer always ends in the zero padding it was created with. *)
Lemma save_rows_app (file : Sink) (image : Image) (pad : list byte) (n : nat) :
  Forall (fun line => length line = Z.to_nat (GetWidth image)) (pixels image) ->
  0 <= 3 * GetWidth image <= INT_MAX ->
  (n <= length (pixels image))%nat ->
  forall (mid sent : list byte),
    length mid = (3 * Z.to_nat (GetWidth image))%nat ->
    save_rows n image (GetWidth image) (mid ++ pad) (ofstream_of file sent)
    = (ofstream_of file
         (sent ++ flat_map (fun line => flat_map bgr line ++ pad)
                           (rev (firstn n (pixels image)))),
       Done tt).
Proof.
  intros Hall Hmax. induction n as [| y IH]; intros Hn mid sent Hmid.
  - simpl. rewrite app_nil_r. reflexivity.
  - cbn [save_rows]. unfold GetLine.
    destruct (nth_error (pixels image) y) as [line |] eqn:Hline;
      [| apply nth_error_None in Hline; lia].
    destruct (nth_error_split _ _ Hline) as [before [after [Hsplit Hlen]]].
    rewrite Hsplit at 1.
    rewrite (vec_get_app before after line) by lia. cbn [obind].
    assert (Hwidth : length line = Z.to_nat (GetWidth image)).
    { rewrite Forall_forall in Hall. apply Hall.
      eapply nth_error_In. exact Hline. }
    rewrite <- Hwidth.
    rewrite save_line_row by (rewrite ?Hwidth; lia).
    rewrite ofstream_write_of.
    rewrite IH by (try lia; rewrite flat_map_bgr_length; lia).
    f_equal. f_equal.
    rewrite <- app_assoc. f_equal.
    rewrite (firstn_snoc _ _ _ Hline), rev_app_distr. reflexivity.
Qed.

(** Whatever the image, the outer loop only ever appends to what was sent. *)
Lemma save_rows_sends (file : Sink) (image : Image) (width : Z) (n : nat) :
  forall (row sent : list byte),
    exists more,
      fst (save_rows n image width row (ofstream_of file sent))
      = ofstream_of file (sent ++ more).
Proof.
  induction n as [| y IH]; intros row sent.
  - exists []. simpl. rewrite app_nil_r. reflexivity.
  - cbn [save_rows].
    destruct (line <- GetLine image (Z.of_nat y) ;;
              save_line (Z.to_nat width) 0 line row) as [row' |].
    + rewrite ofstream_write_of.
      destruct (IH row' (sent ++ row')) as [more Hmore].
      exists (row' ++ more). rewrite Hmore, <- app_assoc. reflexivity.
    + exists []. simpl. rewrite app_nil_r. reflexivity.
Qed.

(** ** SaveBMP: the whole file *)

Lemma encode_headers_length (image : Image) :
  length (encode_headers image) = 54%nat.
Proof.
  unfold encode_headers.
  rewrite length_app, file_header_bytes_length, info_header_bytes_length.
  reflexivity.
Qed.

(** Every run of [SaveBMP] starts by sending the two headers. *)
Lemma SaveBMP_sends_headers (file : Sink) (image : Image) :
  exists more,
    fst (SaveBMP file image) = ofstream_of file (encode_headers image ++ more).
Proof.
  unfold SaveBMP, encode_headers.
  rewrite ofstream_open_of, !ofstream_write_of. cbn [app].
  destruct (vector_new (GetBMPStride (GetWidth image)) x00) as [row |].
  - destruct (save_rows_sends file image (GetWidth image)
                (Z.to_nat (GetHeight image)) row
                (file_header_bytes (SaveBMP_file_header image) ++
                 info_header_bytes (SaveBMP_info_header image)))
      as [more Hmore].
    exists more.
    destruct (save_rows _ _ _ _ _) as [out' [u |]]; exact Hmore.
  - exists []. rewrite app_nil_r. reflexivity.
Qed.

(** For an image whose stride is computed without overflow, [SaveBMP] sends
    the headers and then the encoded rows, and returns the state of the
    stream. *)
Lemma SaveBMP_in_range (file : Sink) (image : Image) :
  Image_wf image -> GetWidth image <= MAX_WIDTH ->
  SaveBMP file image =
  (ofstream_of file (encode_headers image ++ encode_rows image),
   Done (out_good (ofstream_of file (encode_headers image ++ encode_rows image)))).
Proof.
  intros [Hw [Hh [Hrows Hcols]]] Hmax.
  destruct (GetBMPStride_bounds (GetWidth image)) as [_ [Hlo Hhi]]; [lia |].
  unfold MAX_WIDTH in Hmax.
  unfold SaveBMP. rewrite ofstream_open_of, !ofstream_write_of. cbn [app].
  unfold vector_new.
  destruct (Z.ltb_spec (GetBMPStride (GetWidth image)) 0) as [Hneg | _]; [lia |].
  replace (Z.to_nat (GetBMPStride (GetWidth image)))
    with (3 * Z.to_nat (GetWidth image) +
          Z.to_nat (GetBMPStride (GetWidth image) - 3 * GetWidth image))%nat
    by lia.
  rewrite repeat_app.
  rewrite (save_rows_app file image _ (Z.to_nat (GetHeight image)) Hcols)
    by (unfold INT_MAX; rewrite ?repeat_length; lia).
  rewrite <- Hrows, firstn_all. reflexivity.
Qed.

(** ** Pixel rows (C5) *)

(** Within the range of widths: for every pixel buffer with
    [1 <= width <= 715827881] and [height >= 1], [SaveBMP] sends, after
    the 54 header bytes, the rows of the image in reverse order (the last
    row first); each row is, for every pixel from left to right, its blue,
    green and red byte, followed by [stride - 3 * width] bytes equal to 0.
    On a sink that opens and never fills up these are the bytes of the
    file and the call returns [true]. *)
Theorem SaveBMP_pixel_rows (file : Sink) (image : Image) :
  Image_wf image ->
  1 <= GetWidth image <= MAX_WIDTH ->
  1 <= GetHeight image ->
  exists headers : list byte,
    length headers = 54%nat /\
    fst (SaveBMP file image)
    = ofstream_of file
        (headers ++
         flat_map (fun line =>
                     flat_map (fun px => [b px; g px; r px]) line ++
                     repeat x00 (Z.to_nat (GetBMPStride (GetWidth image)
                                           - 3 * GetWidth image)))
                  (rev (pixels image))) /\
    (sink_opens file = true -> sink_room file = None ->
     out_data (fst (SaveBMP file image)) = headers ++ encode_rows image /\
     snd (SaveBMP file image) = Done true).
Proof.
  intros Hwf Hw Hh. exists (encode_headers image).
  rewrite (SaveBMP_in_range file image Hwf) by lia. cbn [fst snd].
  split; [apply encode_headers_length |].
  split; [reflexivity |].
  intros Hopen Hroom.
  destruct (ofstream_of_good file (encode_headers image ++ encode_rows image)
              Hopen) as [Hdata Hgood].
  - rewrite Hroom. exact I.
  - rewrite Hdata, Hgood. split; reflexivity.
Qed.

Lemma image_2x2_wf : Image_wf image_2x2.
Proof.
  unfold Image_wf, image_2x2, INT_MAX. cbn [GetWidth GetHeight pixels].
  repeat split; try lia. repeat constructor.
Qed.

Lemma SaveBMP_pixel_rows_witness :
  exists headers : list byte,
    length headers = 54%nat /\
    fst (SaveBMP plain_file image_2x2)
    = ofstream_of plain_file
        (headers ++
         flat_map (fun line =>
                     flat_map (fun px => [b px; g px; r px]) line ++
                     repeat x00 (Z.to_nat (GetBMPStride (GetWidth image_2x2)
                                           - 3 * GetWidth image_2x2)))
                  (rev (pixels image_2x2))) /\
    (sink_opens plain_file = true -> sink_room plain_file = None ->
     out_data (fst (SaveBMP plain_file image_2x2))
     = headers ++ encode_rows image_2x2 /\
     snd (SaveBMP plain_file image_2x2) = Done true).
Proof.
  apply (SaveBMP_pixel_rows plain_file image_2x2).
  - exact image_2x2_wf.
  - unfold MAX_WIDTH. simpl. lia.
  - simpl. lia.
Defined.

Lemma image_wide_wf : Image_wf image_wide.
Proof.
  unfold Image_wf, image_wide, INT_MAX. cbn [GetWidth GetHeight pixels].
  split; [lia |]. split; [lia |]. split; [reflexivity |].
  constructor; [apply repeat_length | constructor].
Qed.

(** C5: for the pixel buffer of one row of 715827882 black pixels (width
    and height at least 1) [SaveBMP] does not emit the rows.  The stride
    [4 * ((3 * 715827882 + 3) / 4)] = 2147483648 does not fit an [int]:
    [GetBMPStride] gives -2147483644, the row buffer of that size cannot
    be created, and the call ends after the 54 header bytes without
    sending any row and without returning. *)
Theorem SaveBMP_wide_image :
  Image_wf image_wide /\
  1 <= GetWidth image_wide /\ 1 <= GetHeight image_wide /\
  GetBMPStride (GetWidth image_wide) = -2147483644 /\
  snd (SaveBMP plain_file image_wide) = Fault /\
  length (out_data (fst (SaveBMP plain_file image_wide))) = 54%nat.
Proof.
  split; [exact image_wide_wf |].
  split; [simpl; lia |]. split; [simpl; lia |].
  split; [reflexivity |].
  split.
  - unfold SaveBMP. cbn [image_wide GetWidth]. reflexivity.
  - unfold SaveBMP. cbn [image_wide GetWidth]. reflexivity.
Qed.

(** ** Header fields (C6) *)





(** ** The empty image (C9) *)

(** C9: for a pixel buffer of width 0 and height 0 the stride is 0 and the
    row loop runs zero times; whenever the sink opens and accepts 54 bytes,
    [SaveBMP] writes exactly the 54 header bytes and nothing more, and
    returns [true].  In the bytes written the file size field (bytes 2..5)
    is 54, the width and height fields (bytes 18..21, 22..25) are 0 and the
    image size field (bytes 34..37) is 0. *)
Theorem SaveBMP_empty_image (file : Sink) (image : Image) :
  Image_wf image ->
  GetWidth image = 0 -> GetHeight image = 0 ->
  sink_opens file = true ->
  match sink_room file with
  | None => True
  | Some k => (54 <= k)%nat
  end ->
  GetBMPStride (GetWidth image) = 0 /\
  Z.to_nat (GetHeight image) = O /\
  out_data (fst (SaveBMP file image)) = empty_bmp_file /\
  length (out_data (fst (SaveBMP file image))) = 54%nat /\
  le_value (field 2 4 (out_data (fst (SaveBMP file image)))) = 54 /\
  le_int32 (field 18 4 (out_data (fst (SaveBMP file image)))) = 0 /\
  le_int32 (field 22 4 (out_data (fst (SaveBMP file image)))) = 0 /\
  le_value (field 34 4 (out_data (fst (SaveBMP file image)))) = 0 /\
  snd (SaveBMP file image) = Done true.
Proof.
  intros Hwf Hw Hh Hopen Hroom.
  assert (Hsave := SaveBMP_in_range file image Hwf).
  destruct Hwf as [_ [_ [Hrows _]]].
  assert (Himage : image = Image_empty).
  { destruct image as [w h rows]. cbn [GetWidth GetHeight pixels] in *.
    subst w h. destruct rows; [reflexivity | discriminate]. }
  subst image.
  rewrite Hsave by (unfold MAX_WIDTH; cbn [Image_empty GetWidth]; lia).
  cbn [fst snd].
  change (encode_rows Image_empty) with (@nil byte). rewrite app_nil_r.
  destruct (ofstream_of_good file (encode_headers Image_empty) Hopen)
    as [Hdata Hgood].
  { rewrite encode_headers_length. exact Hroom. }
  rewrite Hdata, Hgood.
  replace (encode_headers Image_empty) with empty_bmp_file
    by (vm_compute; reflexivity).
  split; [reflexivity |]. split; [reflexivity |]. split; [reflexivity |].
  split; [reflexivity |]. split; [vm_compute; reflexivity |].
  split; [vm_compute; reflexivity |]. split; [vm_compute; reflexivity |].
  split; [vm_compute; reflexivity | reflexivity].
Qed.

Lemma SaveBMP_empty_image_witness :
  out_data (fst (SaveBMP (mkSink true (Some 54%nat)) Image_empty))
  = empty_bmp_file /\
  snd (SaveBMP (mkSink true (Some 54%nat)) Image_empty) = Done true.
Proof.
  assert (Hwf : Image_wf Image_empty).
  { unfold Image_wf, Image_empty, INT_MAX. simpl.
    split; [lia |]. split; [lia |]. split; [reflexivity | constructor]. }
  destruct (SaveBMP_empty_image (mkSink true (Some 54%nat)) Image_empty Hwf
              eq_refl eq_refl eq_refl) as [_ [_ [Hdata [_ [_ [_ [_ [_ Hret]]]]]]]].
  - simpl. lia.
  - split; [exact Hdata | exact Hret].
Defined.

(** ** LoadBMP: one row *)

Lemma vec_get_Done {A : Type} (v : list A) (i : Z) (a : A) :
  vec_get v i = Done a -> 0 <= i < Z.of_nat (length v).
Proof.
  unfold vec_get. destruct (Z.ltb_spec i 0) as [| Hi]; [discriminate |].
  destruct (nth_error v (Z.to_nat i)) eqn:Hnth; [| discriminate].
  intros _. assert (Hlt : (Z.to_nat i < length v)%nat).
  { apply nth_error_Some. rewrite Hnth. discriminate. }
  lia.
Qed.



Lemma set_b_app (l1 l2 : list Color) (px : Color) (c : byte) (x : Z) :
  x = Z.of_nat (length l1) ->
  set_b (l1 ++ px :: l2) x c = Done (l1 ++ mkColor (r px) (g px) c :: l2).
Proof.
  intros Hx. unfold set_b. rewrite (vec_get_app l1 l2 px x Hx). cbn [obind].
  apply vec_set_app. exact Hx.
Qed.

Lemma set_g_app (l1 l2 : list Color) (px : Color) (c : byte) (x : Z) :
  x = Z.of_nat (length l1) ->
  set_g (l1 ++ px :: l2) x c = Done (l1 ++ mkColor (r px) c (b px) :: l2).
Proof.
  intros Hx. unfold set_g. rewrite (vec_get_app l1 l2 px x Hx). cbn [obind].
  apply vec_set_app. exact Hx.
Qed.

Lemma set_r_app (l1 l2 : list Color) (px : Color) (c : byte) (x : Z) :
  x = Z.of_nat (length l1) ->
  set_r (l1 ++ px :: l2) x c = Done (l1 ++ mkColor c (g px) (b px) :: l2).
Proof.
  intros Hx. unfold set_r. rewrite (vec_get_app l1 l2 px x Hx). cbn [obind].
  apply vec_set_app. exact Hx.
Qed.




(** The inner loop of [LoadBMP] from column [length done] on: the pixels
    [todo] of the line are replaced by the pixels that the bytes [mid] of
    the row encode; the other columns are kept. *)
Lemma load_line_app (todo done keep : list Color) (pre mid post : list byte) :
  length pre = (3 * length done)%nat ->
  length mid = (3 * length todo)%nat ->
  3 * Z.of_nat (length done + length todo) <= INT_MAX ->
  load_line (length todo) (Z.of_nat (length done)) (pre ++ mid ++ post)
            (done ++ todo ++ keep)
  = Done (done ++ decode_pixels mid ++ keep).
Proof.
  revert done pre mid.
  induction todo as [| px todo IH]; intros done pre mid Hpre Hmid Hmax.
  - destruct mid; [reflexivity | discriminate].
  - destruct mid as [| cb [| cg [| cr mid]]]; try list_length.
    cbn [length] in Hmid, Hmax. unfold INT_MAX in Hmax.
    cbn [load_line length].
    rewrite !pixel_index by (unfold INT_MAX; lia).
    cbn [app].
    rewrite (vec_get_app pre _ cb) by lia. cbn [obind].
    rewrite set_b_app by reflexivity. cbn [obind r g b].
    replace (pre ++ cb :: cg :: cr :: mid ++ post)
      with ((pre ++ [cb]) ++ cg :: (cr :: mid ++ post))
      by (rewrite <- app_assoc; reflexivity).
    rewrite (vec_get_app (pre ++ [cb]) _ cg) by list_length. cbn [obind].
    rewrite set_g_app by reflexivity. cbn [obind r g b].
    replace ((pre ++ [cb]) ++ cg :: cr :: mid ++ post)
      with ((pre ++ [cb; cg]) ++ cr :: (mid ++ post))
      by (rewrite <- !app_assoc; reflexivity).
    rewrite (vec_get_app (pre ++ [cb; cg]) _ cr) by list_length. cbn [obind].
    rewrite set_r_app by reflexivity. cbn [obind r g b].
    rewrite next_column by (unfold INT_MAX; lia).
    replace (Z.of_nat (length done) + 1) with (Z.of_nat (length (done ++ [px])))
      by list_length.
    replace (done ++ mkColor cr cg cb :: todo ++ keep)
      with ((done ++ [mkColor cr cg cb]) ++ todo ++ keep)
      by (rewrite <- app_assoc; reflexivity).
    replace ((pre ++ [cb; cg]) ++ cr :: mid ++ post)
      with ((pre ++ [cb; cg; cr]) ++ mid ++ post)
      by (rewrite <- !app_assoc; reflexivity).
    replace (length (done ++ [px])) with (length (done ++ [mkColor cr cg cb]))
      by (rewrite !length_app; reflexivity).
    rewrite IH.
    + rewrite <- !app_assoc. reflexivity.
    + list_length.
    + lia.
    + unfold INT_MAX. list_length.
Qed.

(** When the inner loop of [LoadBMP] completes, every byte it read was
    inside the row buffer: the buffer holds [3 * (x + n)] bytes at least. *)
Lemma load_line_Done (n : nat) :
  forall (x : Z) (row : list byte) (line line' : list Color),
    0 <= x -> 3 * x <= Z.of_nat (length row) <= INT_MAX ->
    load_line n x row line = Done line' ->
    3 * (x + Z.of_nat n) <= Z.of_nat (length row).
Proof.
  induction n as [| n IH]; intros x row line line' Hx Hrow Hdone; [lia |].
  unfold INT_MAX in Hrow.
  cbn [load_line] in Hdone.
  destruct (vec_get row (int_add (int_mul 3 x) 0)) as [cb |]; [| discriminate].
  cbn [obind] in Hdone.
  destruct (set_b line x cb) as [line1 |]; [| discriminate].
  cbn [obind] in Hdone.
  destruct (vec_get row (int_add (int_mul 3 x) 1)) as [cg |]; [| discriminate].
  cbn [obind] in Hdone.
  destruct (set_g line1 x cg) as [line2 |]; [| discriminate].
  cbn [obind] in Hdone.
  destruct (vec_get row (int_add (int_mul 3 x) 2)) as [cr |] eqn:Hget;
    [| discriminate].
  cbn [obind] in Hdone.
  destruct (set_r line2 x cr) as [line3 |]; [| discriminate].
  cbn [obind] in Hdone.
  apply vec_get_Done in Hget.
  assert (Hidx : int_add (int_mul 3 x) 2 = 3 * x + 2).
  { unfold int_add, int_mul in *.
    rewrite (int_wrap_id (3 * x)) in * by (unfold is_int, INT_MIN, INT_MAX; lia).
    destruct (Z_le_gt_dec (3 * x + 2) 2147483647) as [Hle | Hgt].
    - apply int_wrap_id. unfold is_int, INT_MIN, INT_MAX. lia.
    - exfalso. unfold int_wrap in Hget.
      replace (3 * x + 2 + 2147483648) with (3 * x + 2 - 2147483648 + 1 * 4294967296)
        in Hget by lia.
      rewrite Z.mod_add, Z.mod_small in Hget by lia. lia. }
  rewrite Hidx in Hget.
  rewrite next_column in Hdone by (unfold INT_MAX; lia).
  apply IH in Hdone; [lia | lia | unfold INT_MAX; lia].
Qed.

(** ** LoadBMP: reading *)

Lemma ifstream_read_full (s : ifstream) (n : Z) :
  in_good s = true -> 0 <= n ->
  (Z.to_nat n <= length (skipn (in_pos s) (in_data s)))%nat ->
  ifstream_read s n
  = (mkIfstream (in_data s) (in_pos s + Z.to_nat n) true n,
     firstn (Z.to_nat n) (skipn (in_pos s) (in_data s))).
Proof.
  intros Hgood Hn Hlen. unfold ifstream_read. rewrite Hgood.
  rewrite firstn_length_le by exact Hlen.
  rewrite Z2Nat.id by exact Hn. rewrite Z.eqb_refl. reflexivity.
Qed.

Lemma ifstream_read_short (s : ifstream) (n : Z) :
  in_good s = true ->
  (length (skipn (in_pos s) (in_data s)) < Z.to_nat n)%nat ->
  in_good (fst (ifstream_read s n)) = false /\
  (in_gcount (fst (ifstream_read s n)) =? n) = false.
Proof.
  intros Hgood Hlen. unfold ifstream_read. rewrite Hgood. cbn [fst in_good in_gcount].
  rewrite firstn_all2 by lia.
  assert (Hne : (Z.of_nat (length (skipn (in_pos s) (in_data s))) =? n) = false)
    by (apply Z.eqb_neq; lia).
  rewrite Hne. split; reflexivity.
Qed.

Lemma overwrite_full {A : Type} (buf chunk : list A) :
  length chunk = length buf -> overwrite buf chunk = chunk.
Proof.
  intros Hlen. unfold overwrite. rewrite skipn_all2 by lia. apply app_nil_r.
Qed.

Lemma repeat_snoc_app {A : Type} (a : A) (n : nat) (l : list A) :
  repeat a (S n) ++ l = repeat a n ++ a :: l.
Proof.
  change (repeat a (S n)) with (a :: repeat a n).
  rewrite repeat_cons, <- app_assoc. reflexivity.
Qed.

(** ** LoadBMP: the rows *)

Section LoadRows.

Variables stride width columns height : Z.
Hypothesis width_pos : 0 <= width.
Hypothesis stride_covers : 3 * width <= stride <= INT_MAX.
Hypothesis columns_cover : width <= columns.

Let blank : list Color := repeat Black (Z.to_nat columns).

(** One row of a fresh buffer receives the pixels of one encoded row. *)
Lemma load_line_blank (chunk : list byte) :
  length chunk = Z.to_nat stride ->
  load_line (Z.to_nat width) 0 chunk blank
  = Done (decode_row columns width chunk).
Proof.
  intros Hchunk. unfold INT_MAX in stride_covers.
  pose proof (load_line_app (repeat Black (Z.to_nat width)) []
                (repeat Black (Z.to_nat (columns - width))) []
                (firstn (Z.to_nat (3 * width)) chunk)
                (skipn (Z.to_nat (3 * width)) chunk)) as Hload.
  rewrite repeat_length in Hload. cbn [length app] in Hload.
  rewrite firstn_skipn in Hload.
  rewrite <- repeat_app in Hload.
  replace (Z.to_nat width + Z.to_nat (columns - width))%nat
    with (Z.to_nat columns) in Hload by lia.
  apply Hload.
  - reflexivity.
  - rewrite firstn_length_le; lia.
  - unfold INT_MAX. lia.
Qed.

(** The outer loop of [LoadBMP] with [n] rows to go, on a good stream:
    either the source holds [n] more encoded rows, which land in rows
    [n - 1] down to [0], or the result is the empty image. *)
Lemma load_rows_app (n : nat) :
  forall (s : ifstream) (row : list byte) (done : list (list Color)),
    in_good s = true ->
    length row = Z.to_nat stride ->
    load_rows n s stride width row
              (mkImage columns height (repeat blank n ++ done))
    = if (n * Z.to_nat stride <=? length (skipn (in_pos s) (in_data s)))%nat
      then Done (mkImage columns height
                   (rev (map (decode_row columns width)
                             (chunks n (Z.to_nat stride)
                                     (skipn (in_pos s) (in_data s))))
                    ++ done))
      else Done Image_empty.
Proof.
  unfold INT_MAX in stride_covers.
  induction n as [| y IH]; intros s row done Hgood Hrow.
  - reflexivity.
  - cbn [load_rows chunks map rev].
    destruct (Nat.leb_spec (S y * Z.to_nat stride)
                (length (skipn (in_pos s) (in_data s)))) as [Hfits | Hshort].
    + rewrite ifstream_read_full by (try assumption; lia).
      cbn [in_gcount]. rewrite Z.eqb_refl. cbn [negb].
      rewrite overwrite_full by (rewrite firstn_length_le; lia).
      unfold GetLine, SetLine. cbn [pixels GetWidth GetHeight].
      rewrite repeat_snoc_app.
      rewrite (vec_get_app (repeat blank y) done blank)
        by (rewrite repeat_length; reflexivity).
      cbn [obind].
      rewrite load_line_blank by (rewrite firstn_length_le; lia).
      cbn [obind].
      rewrite (vec_set_app (repeat blank y) done blank)
        by (rewrite repeat_length; reflexivity).
      cbn [obind].
      rewrite IH by (try reflexivity; rewrite firstn_length_le; lia).
      cbn [in_pos in_data].
      rewrite (Nat.add_comm (in_pos s)), <- skipn_skipn.
      destruct (Nat.leb_spec (y * Z.to_nat stride)
                  (length (skipn (Z.to_nat stride)
                                 (skipn (in_pos s) (in_data s)))))
        as [_ | Hc]; [| rewrite length_skipn in Hc; lia].
      rewrite <- app_assoc. reflexivity.
    + destruct (Nat.leb_spec (Z.to_nat stride)
                  (length (skipn (in_pos s) (in_data s)))) as [Hone | Hnone].
      * rewrite ifstream_read_full by (try assumption; lia).
        cbn [in_gcount]. rewrite Z.eqb_refl. cbn [negb].
        rewrite overwrite_full by (rewrite firstn_length_le; lia).
        unfold GetLine, SetLine. cbn [pixels GetWidth GetHeight].
        rewrite repeat_snoc_app.
        rewrite (vec_get_app (repeat blank y) done blank)
          by (rewrite repeat_length; reflexivity).
        cbn [obind].
        rewrite load_line_blank by (rewrite firstn_length_le; lia).
        cbn [obind].
        rewrite (vec_set_app (repeat blank y) done blank)
          by (rewrite repeat_length; reflexivity).
        cbn [obind].
        rewrite IH by (try reflexivity; rewrite firstn_length_le; lia).
        cbn [in_pos in_data].
        rewrite (Nat.add_comm (in_pos s)), <- skipn_skipn.
        destruct (Nat.leb_spec (y * Z.to_nat stride)
                    (length (skipn (Z.to_nat stride)
                                   (skipn (in_pos s) (in_data s)))))
          as [Hc | _]; [rewrite length_skipn in Hc; lia | reflexivity].
      * destruct (ifstream_read_short s stride Hgood Hnone) as [_ Hcount].
        destruct (ifstream_read s stride) as [s' chunk].
        cbn [fst] in Hcount. rewrite Hcount. reflexivity.
Qed.

End LoadRows.

(** ** LoadBMP: the headers *)

Lemma unsupported_false (fh : BitmapFileHeader) (ih : BitmapInfoHeader) :
  unsupported fh ih = false <->
  bfType fh = 0x4D42 /\ bfOffBits fh = 54 /\ biSize ih = 40 /\
  biPlanes ih = 1 /\ biBitCount ih = 24 /\ biCompression ih = 0 /\
  0 < biWidth ih /\ 0 < biHeight ih.
Proof.
  unfold unsupported. rewrite !orb_false_iff, !negb_false_iff, !Z.eqb_eq.
  rewrite !Z.leb_gt. tauto.
Qed.

(** With complete headers that pass the check, [LoadBMP] reaches the
    allocation of the image and the row loop, the stream standing right
    behind the headers. *)
Lemma LoadBMP_valid (data : list byte) :
  headers_valid data = true ->
  LoadBMP (Some data)
  = (image <- Image_new (int_div (GetBMPStride (declared_width data)) 3)
                        (declared_height data) Black ;;
     row <- vector_new (GetBMPStride (declared_width data)) x00 ;;
     load_rows (Z.to_nat (declared_height data))
               (mkIfstream data 54 true 40)
               (GetBMPStride (declared_width data)) (declared_width data)
               row image).
Proof.
  unfold headers_valid. rewrite andb_true_iff, negb_true_iff.
  intros [Hlen Hsup]. apply Nat.leb_le in Hlen.
  unfold LoadBMP. cbn [ifstream_open in_good negb].
  unfold sizeof_file_header.
  rewrite ifstream_read_full
    by (cbn [in_good in_pos in_data skipn]; try reflexivity; lia).
  cbn [in_good negb in_pos in_data].
  unfold sizeof_info_header.
  rewrite ifstream_read_full
    by (cbn [in_good in_pos in_data]; try reflexivity;
        rewrite ?length_skipn; lia).
  cbn [in_good negb in_pos in_data].
  change (firstn (Z.to_nat 14) (skipn 0 data)) with (field 0 14 data).
  change (firstn (Z.to_nat 40) (skipn (0 + Z.to_nat 14) data))
    with (field 14 40 data).
  fold (declared_file_header data). fold (declared_info_header data).
  rewrite Hsup.
  apply unsupported_false in Hsup. destruct Hsup as [_ [Hoff _]].
  rewrite Hoff. reflexivity.
Qed.

(** With incomplete headers, or headers that fail the check, [LoadBMP]
    returns the empty image. *)
Lemma LoadBMP_invalid (data : list byte) :
  headers_valid data = false -> LoadBMP (Some data) = Done Image_empty.
Proof.
  unfold headers_valid. intros Hinv.
  unfold LoadBMP. cbn [ifstream_open in_good negb].
  unfold sizeof_file_header, sizeof_info_header.
  destruct (Nat.leb_spec 14 (length data)) as [H14 | H14].
  - rewrite ifstream_read_full
      by (cbn [in_good in_pos in_data skipn]; try reflexivity; lia).
    cbn [in_good negb in_pos in_data].
    destruct (Nat.leb_spec 54 (length data)) as [H54 | H54].
    + rewrite ifstream_read_full
        by (cbn [in_good in_pos in_data]; try reflexivity;
            rewrite ?length_skipn; lia).
      cbn [in_good negb in_pos in_data].
      change (firstn (Z.to_nat 14) (skipn 0 data)) with (field 0 14 data).
      change (firstn (Z.to_nat 40) (skipn (0 + Z.to_nat 14) data))
        with (field 14 40 data).
      fold (declared_file_header data). fold (declared_info_header data).
      cbn [andb] in Hinv. apply negb_false_iff in Hinv.
      rewrite Hinv. reflexivity.
    + destruct (ifstream_read_short
                  (mkIfstream data (0 + Z.to_nat 14) true 14) 40 eq_refl)
        as [Hbad _].
      { cbn [in_pos in_data]. rewrite length_skipn. lia. }
      destruct (ifstream_read _ 40) as [s2 ih]. cbn [fst] in Hbad.
      rewrite Hbad. reflexivity.
  - destruct (ifstream_read_short (mkIfstream data 0 true 0) 14 eq_refl)
      as [Hbad _].
    { cbn [in_pos in_data skipn]. lia. }
    destruct (ifstream_read _ 14) as [s1 fh]. cbn [fst] in Hbad.
    rewrite Hbad. reflexivity.
Qed.

Lemma declared_width_is_int (data : list byte) : is_int (declared_width data).
Proof. apply int_wrap_is_int. Qed.

Lemma declared_height_is_int (data : list byte) : is_int (declared_height data).
Proof. apply int_wrap_is_int. Qed.

Lemma headers_valid_dimensions (data : list byte) :
  headers_valid data = true ->
  0 < declared_width data <= INT_MAX /\ 0 < declared_height data <= INT_MAX.
Proof.
  unfold headers_valid. rewrite andb_true_iff, negb_true_iff.
  intros [_ Hsup]. apply unsupported_false in Hsup.
  destruct Hsup as [_ [_ [_ [_ [_ [_ [Hw Hh]]]]]]].
  pose proof (declared_width_is_int data) as [_ Hwi].
  pose proof (declared_height_is_int data) as [_ Hhi].
  unfold declared_width, declared_height. split; split; assumption.
Qed.

(** ** LoadBMP: the decoded image *)

(** The function [LoadBMP] computes on files whose declared width is at
    most [MAX_WIDTH]: the decoded image when the pixel data holds
    [height] rows of [stride] bytes, the empty image otherwise. *)
Lemma LoadBMP_in_range (data : list byte) :
  headers_valid data = true ->
  declared_width data <= MAX_WIDTH ->
  LoadBMP (Some data)
  = if (Z.to_nat (declared_height data)
        * Z.to_nat (GetBMPStride (declared_width data))
        <=? length (pixel_data data))%nat
    then Done (decode_image data)
    else Done Image_empty.
Proof.
  intros Hvalid Hmax.
  destruct (headers_valid_dimensions data Hvalid) as [Hw Hh].
  destruct (GetBMPStride_bounds (declared_width data)) as [_ [Hlo Hhi]];
    [lia |].
  pose proof (GetBMPStride_is_int (declared_width data)) as [_ Hint].
  rewrite (LoadBMP_valid data Hvalid).
  assert (Hcols : int_div (GetBMPStride (declared_width data)) 3
                  = GetBMPStride (declared_width data) / 3).
  { unfold int_div. rewrite Z.quot_div_nonneg by lia.
    pose proof (Z.div_pos (GetBMPStride (declared_width data)) 3
                  ltac:(lia) ltac:(lia)).
    pose proof (Z.div_le_upper_bound (GetBMPStride (declared_width data)) 3
                  INT_MAX ltac:(lia) ltac:(unfold INT_MAX in *; lia)).
    apply int_wrap_id. unfold is_int, INT_MIN, INT_MAX in *. lia. }
  assert (Hcover : declared_width data <= GetBMPStride (declared_width data) / 3).
  { apply Z.div_le_lower_bound; lia. }
  rewrite Hcols. unfold Image_new, vector_new.
  destruct (Z.ltb_spec (GetBMPStride (declared_width data) / 3) 0); [lia |].
  destruct (Z.ltb_spec (declared_height data) 0); [lia |].
  destruct (Z.ltb_spec (GetBMPStride (declared_width data)) 0); [lia |].
  cbn [orb obind].
  rewrite <- (app_nil_r (repeat _ (Z.to_nat (declared_height data)))).
  rewrite (load_rows_app (GetBMPStride (declared_width data))
             (declared_width data)
             (GetBMPStride (declared_width data) / 3) (declared_height data))
    by (try reflexivity; try apply repeat_length; lia).
  cbn [in_pos in_data]. rewrite app_nil_r. reflexivity.
Qed.

Lemma ifstream_read_count (s s' : ifstream) (n : Z) (chunk : list byte) :
  ifstream_read s n = (s', chunk) ->
  (in_gcount s' =? n) = true -> Z.of_nat (length chunk) = n.
Proof.
  unfold ifstream_read. destruct (in_good s); intros Hread Hcount.
  - injection Hread as <- <-. cbn [in_gcount] in Hcount.
    apply Z.eqb_eq in Hcount. exact Hcount.
  - injection Hread as <- <-. cbn [in_gcount] in Hcount.
    apply Z.eqb_eq in Hcount. simpl. exact Hcount.
Qed.

(** Beyond [MAX_WIDTH] the stride has wrapped around and falls short of the
    row: [LoadBMP] returns the empty image when the first row cannot be
    read, and otherwise ends in a fault (a buffer of negative size, or an
    access behind the end of the row buffer). *)
Lemma LoadBMP_beyond_range (data : list byte) :
  headers_valid data = true ->
  MAX_WIDTH < declared_width data ->
  LoadBMP (Some data) = Fault \/ LoadBMP (Some data) = Done Image_empty.
Proof.
  intros Hvalid Hbig.
  destruct (headers_valid_dimensions data Hvalid) as [Hw Hh].
  assert (Hshort : GetBMPStride (declared_width data) < 3 * declared_width data).
  { destruct (Z_lt_ge_dec (GetBMPStride (declared_width data))
                          (3 * declared_width data)) as [Hlt | Hge];
      [exact Hlt | exfalso].
    pose proof (GetBMPStride_covers (declared_width data) Hw ltac:(lia)). lia. }
  pose proof (GetBMPStride_is_int (declared_width data)) as [_ Hint].
  rewrite (LoadBMP_valid data Hvalid).
  destruct (Image_new _ _ _) as [image |]; [| left; reflexivity].
  cbn [obind]. unfold vector_new.
  destruct (Z.ltb_spec (GetBMPStride (declared_width data)) 0) as [| Hpos];
    [left; reflexivity |].
  cbn [obind].
  destruct (Z.to_nat (declared_height data)) as [| y] eqn:Hy; [lia |].
  cbn [load_rows].
  destruct (ifstream_read _ _) as [s' chunk] eqn:Hread.
  destruct (in_gcount s' =? GetBMPStride (declared_width data)) eqn:Hcount;
    [| right; reflexivity].
  cbn [negb]. left.
  apply (ifstream_read_count _ _ _ _ Hread) in Hcount.
  rewrite overwrite_full by (rewrite repeat_length; lia).
  destruct (GetLine image (Z.of_nat y)) as [line |]; [| reflexivity].
  cbn [obind].
  destruct (load_line _ 0 chunk line) as [line' |] eqn:Hline; [| reflexivity].
  exfalso. apply load_line_Done in Hline; lia.
Qed.

(** A result other than the empty image comes from valid headers and a
    width within range, and is the decoded image. *)
Lemma LoadBMP_Done_inv (data : list byte) (img : Image) :
  LoadBMP (Some data) = Done img -> img <> Image_empty ->
  headers_valid data = true /\
  declared_width data <= MAX_WIDTH /\
  (Z.to_nat (declared_height data) * Z.to_nat (GetBMPStride (declared_width data))
   <= length (pixel_data data))%nat /\
  img = decode_image data.
Proof.
  intros Hload Hne.
  destruct (headers_valid data) eqn:Hvalid.
  - destruct (Z_le_gt_dec (declared_width data) MAX_WIDTH) as [Hle | Hgt].
    + rewrite (LoadBMP_in_range data Hvalid Hle) in Hload.
      destruct (Nat.leb_spec
                  (Z.to_nat (declared_height data)
                   * Z.to_nat (GetBMPStride (declared_width data)))
                  (length (pixel_data data))) as [Hfits | Hshort].
      * injection Hload as <-. repeat split; assumption.
      * injection Hload as <-. contradiction.
    + destruct (LoadBMP_beyond_range data Hvalid ltac:(lia)) as [Hf | He];
        rewrite Hload in *; [discriminate |].
      injection He as ->. contradiction.
  - rewrite (LoadBMP_invalid data Hvalid) in Hload.
    injection Hload as <-. contradiction.
Qed.

(** ** The shape of the decoded image *)

Lemma chunks_length (n size : nat) (bs : list byte) :
  length (chunks n size bs) = n.
Proof.
  revert bs. induction n as [| n IH]; intros bs; simpl; [reflexivity |].
  rewrite IH. reflexivity.
Qed.

Lemma chunks_full (n size : nat) (bs : list byte) :
  (n * size <= length bs)%nat ->
  Forall (fun chunk => length chunk = size) (chunks n size bs).
Proof.
  revert bs. induction n as [| n IH]; intros bs Hlen; simpl; constructor.
  - apply firstn_length_le. simpl in Hlen. lia.
  - apply IH. rewrite length_skipn. simpl in Hlen. lia.
Qed.

Lemma decode_pixels_length (k : nat) :
  forall bs, length bs = (3 * k)%nat -> length (decode_pixels bs) = k.
Proof.
  induction k as [| k IH]; intros bs Hlen.
  - destruct bs; [reflexivity | discriminate].
  - destruct bs as [| cb [| cg [| cr bs]]]; try (cbn [length] in Hlen; lia).
    cbn [decode_pixels length]. rewrite IH; [reflexivity |].
    cbn [length] in Hlen. lia.
Qed.

Lemma decode_row_length (columns width : Z) (chunk : list byte) :
  0 <= width <= columns -> (Z.to_nat (3 * width) <= length chunk)%nat ->
  length (decode_row columns width chunk) = Z.to_nat columns.
Proof.
  intros Hw Hlen. unfold decode_row.
  rewrite length_app, repeat_length.
  rewrite (decode_pixels_length (Z.to_nat width))
    by (rewrite firstn_length_le; lia).
  lia.
Qed.

(** In a decoded row the columns from [width] on are black. *)
Lemma decode_row_black (columns width : Z) (chunk : list byte) (x : nat) (px : Color) :
  0 <= width -> (Z.to_nat (3 * width) <= length chunk)%nat ->
  width <= Z.of_nat x ->
  nth_error (decode_row columns width chunk) x = Some px -> px = Black.
Proof.
  intros Hw Hlen Hx. unfold decode_row.
  rewrite nth_error_app2
    by (rewrite (decode_pixels_length (Z.to_nat width));
        [lia | rewrite firstn_length_le; lia]).
  intros Hnth. apply nth_error_In, repeat_spec in Hnth. exact Hnth.
Qed.

(** The number of columns of the decoded image, in range: [width], or
    [width + 1] exactly when [width mod 4 = 3]. *)
Lemma columns_in_range (w : Z) :
  0 <= w <= MAX_WIDTH ->
  (w mod 4 = 3 -> GetBMPStride w / 3 = w + 1) /\
  (w mod 4 <> 3 -> GetBMPStride w / 3 = w).
Proof.
  intros Hw. rewrite (GetBMPStride_in_range w Hw).
  pose proof (Z.div_mod w 4 ltac:(lia)) as Hdm.
  pose proof (Z.mod_pos_bound w 4 ltac:(lia)) as Hm.
  pose proof (Z.div_mod (3 * w + 3) 4 ltac:(lia)) as Hdm'.
  pose proof (Z.mod_pos_bound (3 * w + 3) 4 ltac:(lia)) as Hm'.
  split; intros Hmod; symmetry.
  - apply Z.div_unique with (r := 0); lia.
  - assert (Hpad : (3 * w + 3) mod 4 <> 0) by lia.
    apply Z.div_unique with (r := 3 - (3 * w + 3) mod 4); lia.
Qed.

(** ** The decoded buffer (C10) *)

(** C10: whenever [LoadBMP] succeeds, the returned buffer has as many rows
    as the header's height and [GetBMPStride(width) / 3] columns; every
    pixel in a column at index [>=] the header's width is black, and such a
    column is present exactly when [width mod 4 = 3]. *)
Theorem LoadBMP_decoded_shape (data : list byte) (img : Image) :
  LoadBMP (Some data) = Done img -> img <> Image_empty ->
  GetHeight img = declared_height data /\
  length (pixels img) = Z.to_nat (declared_height data) /\
  GetWidth img = int_div (GetBMPStride (declared_width data)) 3 /\
  GetWidth img = GetBMPStride (declared_width data) / 3 /\
  Forall (fun line => length line = Z.to_nat (GetWidth img)) (pixels img) /\
  (forall (x y : nat) (px : Color),
     declared_width data <= Z.of_nat x ->
     GetPixel img x y = Some px -> px = Black) /\
  ((exists (x y : nat) (px : Color),
      declared_width data <= Z.of_nat x /\ GetPixel img x y = Some px)
   <-> declared_width data mod 4 = 3).
Proof.
  intros Hload Hne.
  destruct (LoadBMP_Done_inv data img Hload Hne) as [Hvalid [Hmax [Hfits ->]]].
  destruct (headers_valid_dimensions data Hvalid) as [Hw Hh].
  destruct (GetBMPStride_bounds (declared_width data)) as [_ [Hlo Hhi]];
    [lia |].
  pose proof (GetBMPStride_is_int (declared_width data)) as [_ Hint].
  unfold INT_MAX in Hint.
  pose proof (chunks_full _ _ _ Hfits) as Hchunks.
  assert (Hcover : declared_width data <= GetBMPStride (declared_width data) / 3)
    by (apply Z.div_le_lower_bound; lia).
  assert (Hrow : forall line, In line (pixels (decode_image data)) ->
            exists chunk,
              line = decode_row (GetBMPStride (declared_width data) / 3)
                                (declared_width data) chunk /\
              length chunk = Z.to_nat (GetBMPStride (declared_width data))).
  { intros line Hin. unfold decode_image in Hin. cbn [pixels] in Hin.
    apply in_rev in Hin. apply in_map_iff in Hin.
    destruct Hin as [chunk [<- Hin]]. exists chunk. split; [reflexivity |].
    rewrite Forall_forall in Hchunks. apply Hchunks. exact Hin. }
  assert (Hrows : length (pixels (decode_image data))
                  = Z.to_nat (declared_height data)).
  { unfold decode_image. cbn [pixels].
    rewrite length_rev, length_map, chunks_length. reflexivity. }
  split; [reflexivity |]. split; [exact Hrows |].
  split.
  { unfold decode_image. cbn [GetWidth]. unfold int_div.
    rewrite Z.quot_div_nonneg by lia. symmetry. apply int_wrap_id.
    pose proof (Z.div_pos (GetBMPStride (declared_width data)) 3
                  ltac:(lia) ltac:(lia)).
    pose proof (Z.div_le_upper_bound (GetBMPStride (declared_width data)) 3
                  2147483647 ltac:(lia) ltac:(lia)).
    unfold is_int, INT_MIN, INT_MAX. lia. }
  split; [reflexivity |].
  split.
  { apply Forall_forall. intros line Hin.
    destruct (Hrow line Hin) as [chunk [-> Hlen]].
    unfold decode_image. cbn [GetWidth].
    apply decode_row_length; lia. }
  split.
  { intros x y px Hx. unfold GetPixel.
    destruct (nth_error (pixels (decode_image data)) y) as [line |] eqn:Hy;
      [| discriminate].
    destruct (Hrow line (nth_error_In _ _ Hy)) as [chunk [-> Hlen]].
    apply decode_row_black; lia. }
  destruct (columns_in_range (declared_width data) ltac:(lia)) as [Hwide Hexact].
  split.
  - intros [x [y [px [Hx Hpx]]]].
    destruct (Z.eq_dec (declared_width data mod 4) 3) as [Heq | Hneq];
      [exact Heq | exfalso].
    unfold GetPixel in Hpx.
    destruct (nth_error (pixels (decode_image data)) y) as [line |] eqn:Hy;
      [| discriminate].
    destruct (Hrow line (nth_error_In _ _ Hy)) as [chunk [-> Hlen]].
    assert (Hlt : (x < length (decode_row (GetBMPStride (declared_width data) / 3)
                                          (declared_width data) chunk))%nat).
    { apply nth_error_Some. rewrite Hpx. discriminate. }
    rewrite decode_row_length in Hlt by lia.
    rewrite (Hexact Hneq) in Hlt. lia.
  - intros Hmod.
    destruct (pixels (decode_image data)) as [| line rest] eqn:Hpix;
      [cbn [length] in Hrows; lia |].
    destruct (Hrow line) as [chunk [Hline Hlen]]; [left; reflexivity |].
    assert (Hlt : (Z.to_nat (declared_width data) < length line)%nat).
    { rewrite Hline, decode_row_length by lia. rewrite (Hwide Hmod). lia. }
    apply nth_error_Some in Hlt.
    destruct (nth_error line (Z.to_nat (declared_width data))) as [px |] eqn:Hpx;
      [| contradiction].
    exists (Z.to_nat (declared_width data)), O, px.
    split; [lia |]. unfold GetPixel. rewrite Hpix. cbn [nth_error]. exact Hpx.
Qed.

Lemma LoadBMP_decoded_shape_witness :
  GetHeight image_3x1_loaded = declared_height file_3x1 /\
  length (pixels image_3x1_loaded) = Z.to_nat (declared_height file_3x1) /\
  GetWidth image_3x1_loaded = int_div (GetBMPStride (declared_width file_3x1)) 3 /\
  GetWidth image_3x1_loaded = GetBMPStride (declared_width file_3x1) / 3 /\
  Forall (fun line => length line = Z.to_nat (GetWidth image_3x1_loaded))
         (pixels image_3x1_loaded) /\
  (forall (x y : nat) (px : Color),
     declared_width file_3x1 <= Z.of_nat x ->
     GetPixel image_3x1_loaded x y = Some px -> px = Black) /\
  ((exists (x y : nat) (px : Color),
      declared_width file_3x1 <= Z.of_nat x /\
      GetPixel image_3x1_loaded x y = Some px)
   <-> declared_width file_3x1 mod 4 = 3).
Proof.
  apply (LoadBMP_decoded_shape file_3x1 image_3x1_loaded).
  - vm_compute. reflexivity.
  - discriminate.
Defined.

(** ** Decoding what was encoded (C1, C2) *)

(** C1 at a 3x1 image: [SaveBMP] writes 66 bytes and returns [true];
    [LoadBMP] of these bytes returns a buffer of width 4, the three pixels
    followed by a black one, and not the image that was saved. *)
Theorem roundtrip_3x1 :
  Image_wf image_3x1 /\
  SaveBMP plain_file image_3x1 = (mkOfstream file_3x1 true None, Done true) /\
  length file_3x1 = 66%nat /\
  LoadBMP (Some file_3x1) = Done image_3x1_loaded /\
  GetWidth image_3x1 = 3 /\
  GetWidth image_3x1_loaded = 4 /\
  image_3x1_loaded <> image_3x1.
Proof.
  split.
  { unfold Image_wf, image_3x1, INT_MAX. cbn [GetWidth GetHeight pixels].
    split; [lia |]. split; [lia |]. split; [reflexivity |].
    repeat constructor. }
  split; [vm_compute; reflexivity |].
  split; [vm_compute; reflexivity |].
  split; [vm_compute; reflexivity |].
  split; [reflexivity |]. split; [reflexivity |]. discriminate.
Qed.

(** C2 at a file that declares 7 columns and 2 rows and holds both rows:
    the headers pass the check, and the buffer [LoadBMP] returns has 8
    columns in each of its 2 rows. *)
Theorem LoadBMP_7x2_columns :
  headers_valid file_7x2 = true /\
  declared_width file_7x2 = 7 /\
  declared_height file_7x2 = 2 /\
  exists img,
    LoadBMP (Some file_7x2) = Done img /\
    GetWidth img = 8 /\ GetHeight img = 2 /\
    Forall (fun line => length line = 8%nat) (pixels img).
Proof.
  split; [vm_compute; reflexivity |].
  split; [vm_compute; reflexivity |].
  split; [vm_compute; reflexivity |].
  eexists. split; [vm_compute; reflexivity |].
  split; [reflexivity |]. split; [reflexivity |].
  repeat constructor.
Qed.

(** Whenever [LoadBMP] succeeds on a file whose declared width leaves
    remainder 3 modulo 4, the buffer is one column wider than declared. *)
Lemma LoadBMP_one_column_more (data : list byte) (img : Image) :
  LoadBMP (Some data) = Done img -> img <> Image_empty ->
  declared_width data mod 4 = 3 ->
  GetWidth img = declared_width data + 1.
Proof.
  intros Hload Hne Hmod.
  destruct (LoadBMP_Done_inv data img Hload Hne) as [Hvalid [Hmax [_ ->]]].
  destruct (headers_valid_dimensions data Hvalid) as [Hw _].
  destruct (columns_in_range (declared_width data) ltac:(lia)) as [Hwide _].
  unfold decode_image. cbn [GetWidth]. apply Hwide. exact Hmod.
Qed.

(** ** Failure (C3, C7) *)

(** C3 at a 54-byte file whose headers pass every check and declare one
    row of 715827882 pixels: the stride overflows, and [LoadBMP] neither
    returns the empty image nor any other: the call ends in a fault. *)
Theorem LoadBMP_wide_header :
  length file_wide_header = 54%nat /\
  headers_valid file_wide_header = true /\
  declared_width file_wide_header = 715827882 /\
  declared_height file_wide_header = 1 /\
  GetBMPStride (declared_width file_wide_header) = -2147483644 /\
  LoadBMP (Some file_wide_header) = Fault.
Proof.
  split; [vm_compute; reflexivity |].
  split; [vm_compute; reflexivity |].
  split; [vm_compute; reflexivity |].
  split; [vm_compute; reflexivity |].
  split; [vm_compute; reflexivity |].
  vm_compute. reflexivity.
Qed.

(** C7 at a 58-byte file whose headers pass every check and declare two
    rows of 1431655766 pixels: the stride wraps around to 4, the four bytes
    of pixel data are fewer than [stride * height = 8], and [LoadBMP] does
    not return the empty image: after the first row is read, the second
    pixel falls outside the one-column buffer and the call ends in a fault. *)
Theorem LoadBMP_short_rows :
  headers_valid file_short_rows = true /\
  declared_width file_short_rows = 1431655766 /\
  declared_height file_short_rows = 2 /\
  GetBMPStride (declared_width file_short_rows) = 4 /\
  length (pixel_data file_short_rows) = 4%nat /\
  Z.of_nat (length (pixel_data file_short_rows))
  < GetBMPStride (declared_width file_short_rows) * declared_height file_short_rows /\
  LoadBMP (Some file_short_rows) = Fault.
Proof.
  split; [vm_compute; reflexivity |].
  split; [vm_compute; reflexivity |].
  split; [vm_compute; reflexivity |].
  split; [vm_compute; reflexivity |].
  split; [vm_compute; reflexivity |].
  split; [vm_compute; reflexivity |].
  lazy. reflexivity.
Qed.

Lemma decode_image_not_empty (data : list byte) :
  headers_valid data = true -> decode_image data <> Image_empty.
Proof.
  intros Hvalid Heq.
  destruct (headers_valid_dimensions data Hvalid) as [_ Hh].
  apply (f_equal GetHeight) in Heq. unfold decode_image in Heq.
  cbn [GetHeight Image_empty] in Heq. lia.
Qed.

(** ** The reserved field (C8) *)

Lemma field_field (off len off0 len0 : nat) (bs : list byte) :
  (off + len <= len0)%nat ->
  field off len (field off0 len0 bs) = field (off0 + off) len bs.
Proof.
  intros Hle. unfold field.
  rewrite skipn_firstn_comm, firstn_firstn, skipn_skipn.
  rewrite Nat.min_l by lia. rewrite (Nat.add_comm off off0). reflexivity.
Qed.

(** The row loop sees its stream only through its state and the bytes that
    are still to be read. *)
Lemma load_rows_stream_ext (stride width : Z) (n : nat) :
  forall (s1 s2 : ifstream) (row : list byte) (image : Image),
    in_good s1 = in_good s2 ->
    skipn (in_pos s1) (in_data s1) = skipn (in_pos s2) (in_data s2) ->
    load_rows n s1 stride width row image
    = load_rows n s2 stride width row image.
Proof.
  induction n as [| y IH]; intros s1 s2 row image Hgood Hrest; [reflexivity |].
  cbn [load_rows]. unfold ifstream_read. rewrite Hgood, Hrest.
  destruct (in_good s2).
  - cbn [in_gcount].
    destruct (negb (_ =? stride)); [reflexivity |].
    destruct (GetLine image (Z.of_nat y)) as [line |]; [| reflexivity].
    cbn [obind].
    destruct (load_line _ 0 _ line) as [line' |]; [| reflexivity].
    cbn [obind].
    destruct (SetLine image (Z.of_nat y) line') as [image' |]; [| reflexivity].
    cbn [obind]. apply IH; [reflexivity |]. cbn [in_pos in_data].
    rewrite !(Nat.add_comm (in_pos _)), <- !skipn_skipn, Hrest. reflexivity.
  - cbn [in_gcount].
    destruct (negb (0 =? stride)); [reflexivity |].
    destruct (GetLine image (Z.of_nat y)) as [line |]; [| reflexivity].
    cbn [obind].
    destruct (load_line _ 0 _ line) as [line' |]; [| reflexivity].
    cbn [obind].
    destruct (SetLine image (Z.of_nat y) line') as [image' |]; [| reflexivity].
    cbn [obind]. apply IH; [reflexivity |]. cbn [in_pos in_data]. exact Hrest.
Qed.

(** [LoadBMP] reads of the first ten bytes only the signature. *)
Lemma LoadBMP_ext (d1 d2 : list byte) :
  length d1 = length d2 ->
  field 0 2 d1 = field 0 2 d2 ->
  skipn 10 d1 = skipn 10 d2 ->
  LoadBMP (Some d1) = LoadBMP (Some d2).
Proof.
  intros Hlen Hsig Hrest.
  assert (Hoff : field 10 4 d1 = field 10 4 d2)
    by (unfold field; rewrite Hrest; reflexivity).
  assert (Hinfo : field 14 40 d1 = field 14 40 d2).
  { unfold field. change 14%nat with (4 + 10)%nat.
    rewrite <- !skipn_skipn, Hrest. reflexivity. }
  assert (Hpix : skipn 54 d1 = skipn 54 d2).
  { change 54%nat with (44 + 10)%nat.
    rewrite <- !skipn_skipn, Hrest. reflexivity. }
  assert (Hih : declared_info_header d1 = declared_info_header d2)
    by (unfold declared_info_header; rewrite Hinfo; reflexivity).
  assert (Hvalid : headers_valid d1 = headers_valid d2).
  { unfold headers_valid, unsupported. rewrite Hlen, Hih.
    unfold declared_file_header, file_header_of_bytes. cbn [bfType bfOffBits].
    rewrite !field_field by lia. cbn [Nat.add].
    rewrite Hsig, Hoff. reflexivity. }
  destruct (headers_valid d2) eqn:Hv2.
  - rewrite (LoadBMP_valid d1 Hvalid), (LoadBMP_valid d2 Hv2).
    unfold declared_width, declared_height. rewrite Hih.
    destruct (Image_new _ _ Black) as [image |]; [| reflexivity].
    cbn [obind].
    destruct (vector_new _ x00) as [row |]; [| reflexivity].
    cbn [obind].
    apply load_rows_stream_ext; [reflexivity | exact Hpix].
  - rewrite (LoadBMP_invalid d1 Hvalid), (LoadBMP_invalid d2 Hv2). reflexivity.
Qed.

Lemma nth_error_firstn_Some {A : Type} (k i : nat) (l : list A) (a : A) :
  nth_error (firstn k l) i = Some a -> nth_error l i = Some a.
Proof.
  rewrite nth_error_firstn. destruct (i <? k)%nat; [auto | discriminate].
Qed.

(** Every byte that [SaveBMP] leaves in the sink at offsets 6..9 is zero. *)
Lemma SaveBMP_reserved_bytes (file : Sink) (image : Image) (i : nat) (c : byte) :
  (6 <= i < 10)%nat ->
  nth_error (out_data (fst (SaveBMP file image))) i = Some c -> c = x00.
Proof.
  intros Hi Hnth.
  destruct (SaveBMP_sends_headers file image) as [more Hmore].
  rewrite Hmore in Hnth.
  destruct (ofstream_of_prefix file (encode_headers image ++ more)) as [k Hk].
  rewrite Hk in Hnth. apply nth_error_firstn_Some in Hnth.
  unfold encode_headers in Hnth.
  rewrite <- app_assoc in Hnth.
  rewrite nth_error_app1 in Hnth by (rewrite file_header_bytes_length; lia).
  unfold file_header_bytes, SaveBMP_file_header in Hnth.
  cbn [bfType bfSize bfReserved bfOffBits default_file_header le_bytes app]
    in Hnth.
  do 6 (destruct i as [| i]; [lia |]).
  do 4 (destruct i as [| i];
        [cbn [nth_error] in Hnth; injection Hnth as <-; reflexivity |]).
  lia.
Qed.

(** C8: [SaveBMP] always writes 0 into the reserved field (bytes 6..9),
    and the result of [LoadBMP] does not depend on that field: two inputs
    that differ only in bytes 6..9 decode to the same result. *)
Theorem reserved_field (file : Sink) (image : Image) (d1 d2 : list byte) :
  (bfReserved (SaveBMP_file_header image) = 0 /\
   forall (i : nat) (c : byte),
     (6 <= i < 10)%nat ->
     nth_error (out_data (fst (SaveBMP file image))) i = Some c -> c = x00) /\
  (length d1 = length d2 ->
   (forall i : nat, (i < 6 \/ 10 <= i)%nat -> nth_error d1 i = nth_error d2 i) ->
   LoadBMP (Some d1) = LoadBMP (Some d2)).
Proof.
  split.
  - split; [reflexivity |]. intros i c. apply SaveBMP_reserved_bytes.
  - intros Hlen Hsame. apply LoadBMP_ext; [exact Hlen | |].
    + apply nth_error_ext. intros i. unfold field.
      rewrite !nth_error_firstn. cbn [skipn].
      destruct (Nat.ltb_spec i 2) as [Hi | _]; [| reflexivity].
      apply Hsame. lia.
    + apply nth_error_ext. intros i. rewrite !nth_error_skipn.
      apply Hsame. lia.
Qed.

Lemma reserved_field_witness :
  length file_3x1 = length file_3x1_reserved /\
  nth_error file_3x1 6 <> nth_error file_3x1_reserved 6 /\
  LoadBMP (Some file_3x1) = LoadBMP (Some file_3x1_reserved).
Proof.
  split; [vm_compute; reflexivity |].
  split; [vm_compute; discriminate |].
  apply (reserved_field plain_file image_3x1 file_3x1 file_3x1_reserved).
  - vm_compute. reflexivity.
  - intros i Hi.
    do 6 (destruct i as [| i]; [vm_compute; reflexivity |]).
    do 4 (destruct i as [| i]; [lia |]).
    do 56 (destruct i as [| i]; [vm_compute; reflexivity |]).
    vm_compute. reflexivity.
Defined.

(** ** Decoding what was encoded, in general *)

Lemma decode_pixels_bgr (line : list Color) :
  decode_pixels (flat_map bgr line) = line.
Proof.
  induction line as [| [cr cg cb] line IH]; [reflexivity |].
  cbn [flat_map bgr app r g b decode_pixels]. rewrite IH. reflexivity.
Qed.

Lemma encode_row_length (stride width : Z) (line : list Color) :
  3 * width <= stride -> length line = Z.to_nat width -> 0 <= width ->
  length (encode_row stride width line) = Z.to_nat stride.
Proof.
  intros Hs Hl Hw. unfold encode_row.
  rewrite length_app, flat_map_bgr_length, repeat_length. lia.
Qed.

Lemma decode_encode_row (stride columns width : Z) (line : list Color) :
  length line = Z.to_nat width -> 0 <= width ->
  decode_row columns width (encode_row stride width line)
  = line ++ repeat Black (Z.to_nat (columns - width)).
Proof.
  intros Hl Hw. unfold decode_row, encode_row.
  rewrite firstn_app, flat_map_bgr_length.
  replace (Z.to_nat (3 * width) - 3 * length line)%nat with O by lia.
  rewrite firstn_all2 by (rewrite flat_map_bgr_length; lia).
  cbn [firstn]. rewrite app_nil_r, decode_pixels_bgr. reflexivity.
Qed.

(** Cutting a concatenation of pieces of equal size gives the pieces back. *)
Lemma chunks_flat_map {A : Type} (f : A -> list byte) (size : nat) (ls : list A) :
  Forall (fun l => length (f l) = size) ls ->
  chunks (length ls) size (flat_map f ls) = map f ls.
Proof.
  induction ls as [| l ls IH]; intros Hall; [reflexivity |].
  inversion Hall as [| ? ? Hl Hls]; subst.
  cbn [length chunks flat_map map].
  rewrite firstn_app, Nat.sub_diag, firstn_all. cbn [firstn].
  rewrite app_nil_r. f_equal.
  rewrite skipn_app, Nat.sub_diag, skipn_all. cbn [skipn app].
  apply IH. exact Hls.
Qed.

Lemma flat_map_length_const {A : Type} (f : A -> list byte) (size : nat) (ls : list A) :
  Forall (fun l => length (f l) = size) ls ->
  length (flat_map f ls) = (length ls * size)%nat.
Proof.
  induction ls as [| l ls IH]; intros Hall; [reflexivity |].
  inversion Hall as [| ? ? Hl Hls]; subst.
  cbn [flat_map length]. rewrite length_app, (IH Hls). lia.
Qed.

(** The headers that a file made of two serialized headers declares. *)
Lemma declared_headers (fh : BitmapFileHeader) (ih : BitmapInfoHeader)
  (rest : list byte) :
  let data := (file_header_bytes fh ++ info_header_bytes ih) ++ rest in
  bfType (declared_file_header data) = bfType fh mod 65536 /\
  bfOffBits (declared_file_header data) = bfOffBits fh mod 4294967296 /\
  biSize (declared_info_header data) = biSize ih mod 4294967296 /\
  biPlanes (declared_info_header data) = biPlanes ih mod 65536 /\
  biBitCount (declared_info_header data) = biBitCount ih mod 65536 /\
  biCompression (declared_info_header data) = biCompression ih mod 4294967296 /\
  declared_width data = int_wrap (biWidth ih mod 4294967296) /\
  declared_height data = int_wrap (biHeight ih mod 4294967296).
Proof.
  cbv zeta.
  unfold declared_width, declared_height, declared_file_header,
    declared_info_header, file_header_of_bytes, info_header_of_bytes, le_int32.
  cbn [bfType bfOffBits biSize biPlanes biBitCount biCompression biWidth biHeight].
  rewrite !field_field by lia.
  unfold file_header_bytes, info_header_bytes.
  cbn [le_bytes app field skipn firstn Nat.add].
  repeat split.
  - exact (le_value_le_bytes 2 (bfType fh)).
  - exact (le_value_le_bytes 4 (bfOffBits fh)).
  - exact (le_value_le_bytes 4 (biSize ih)).
  - exact (le_value_le_bytes 2 (biPlanes ih)).
  - exact (le_value_le_bytes 2 (biBitCount ih)).
  - exact (le_value_le_bytes 4 (biCompression ih)).
  - exact (f_equal int_wrap (le_value_le_bytes 4 (biWidth ih))).
  - exact (f_equal int_wrap (le_value_le_bytes 4 (biHeight ih))).
Qed.

(** Decoding the bytes of an encoded image, within the range of widths:
    the image comes back in a buffer of [stride / 3] columns. *)
Lemma LoadBMP_encoded (image : Image) :
  Image_wf image ->
  1 <= GetWidth image <= MAX_WIDTH ->
  1 <= GetHeight image ->
  LoadBMP (Some (encode_headers image ++ encode_rows image))
  = Done (widened image).
Proof.
  intros [Hw [Hh [Hrows Hcols]]] Hwidth Hheight.
  unfold MAX_WIDTH in Hwidth. unfold INT_MAX in Hw, Hh.
  destruct (GetBMPStride_bounds (GetWidth image)) as [_ [Hlo Hhi]];
    [unfold MAX_WIDTH; lia |].
  set (data := encode_headers image ++ encode_rows image).
  destruct (declared_headers (SaveBMP_file_header image)
              (SaveBMP_info_header image) (encode_rows image))
    as [Htype [Hoff [Hsize [Hplanes [Hbits [Hcomp [Hdw Hdh]]]]]]].
  fold (encode_headers image) in Htype, Hoff, Hsize, Hplanes, Hbits, Hcomp, Hdw, Hdh.
  fold data in Htype, Hoff, Hsize, Hplanes, Hbits, Hcomp, Hdw, Hdh.
  cbn [SaveBMP_file_header SaveBMP_info_header bfType bfOffBits biSize biPlanes
       biBitCount biCompression biWidth biHeight default_file_header
       default_info_header] in Htype, Hoff, Hsize, Hplanes, Hbits, Hcomp, Hdw, Hdh.
  rewrite Z.mod_small, int_wrap_id in Hdw, Hdh
    by (unfold is_int, INT_MIN, INT_MAX; lia).
  assert (Hvalid : headers_valid data = true).
  { unfold headers_valid. apply andb_true_iff. split.
    - apply Nat.leb_le. unfold data.
      rewrite length_app, encode_headers_length. lia.
    - apply negb_true_iff, unsupported_false.
      fold (declared_width data). fold (declared_height data).
      rewrite Htype, Hoff, Hsize, Hplanes, Hbits, Hcomp, Hdw, Hdh.
      repeat split; try reflexivity; lia. }
  assert (Hpix : pixel_data data = encode_rows image).
  { unfold pixel_data, data.
    rewrite skipn_app, encode_headers_length, Nat.sub_diag.
    rewrite skipn_all2 by (rewrite encode_headers_length; lia).
    reflexivity. }
  assert (Henc : Forall (fun line =>
                   length (encode_row (GetBMPStride (GetWidth image))
                                      (GetWidth image) line)
                   = Z.to_nat (GetBMPStride (GetWidth image)))
                 (rev (pixels image))).
  { apply Forall_rev. rewrite Forall_forall in Hcols |- *.
    intros line Hin. apply encode_row_length; [lia | auto | lia]. }
  rewrite (LoadBMP_in_range data Hvalid) by (rewrite Hdw; unfold MAX_WIDTH; lia).
  rewrite Hpix, Hdw, Hdh.
  unfold encode_rows at 1.
  rewrite (flat_map_length_const _ _ _ Henc), length_rev, Hrows, Nat.leb_refl.
  f_equal. unfold decode_image, widened.
  rewrite Hpix, Hdw, Hdh. f_equal.
  unfold encode_rows.
  rewrite <- Hrows, <- (length_rev (pixels image)).
  rewrite (chunks_flat_map _ _ _ Henc).
  rewrite map_map, map_rev, rev_involutive.
  apply map_ext_in. intros line Hin.
  rewrite Forall_forall in Hcols.
  apply decode_encode_row; [auto | lia].
Qed.

(** X2: decoding what [SaveBMP] wrote gives the image back exactly when its
    width does not leave remainder 3 modulo 4; otherwise the buffer is one
    column wider. *)
Lemma roundtrip_in_range (image : Image) :
  Image_wf image ->
  1 <= GetWidth image <= MAX_WIDTH ->
  1 <= GetHeight image ->
  LoadBMP (Some (out_data (fst (SaveBMP plain_file image)))) = Done (widened image) /\
  (GetWidth image mod 4 <> 3 -> widened image = image) /\
  (GetWidth image mod 4 = 3 ->
   GetWidth (widened image) = GetWidth image + 1).
Proof.
  intros Hwf Hwidth Hheight.
  rewrite (SaveBMP_in_range plain_file image Hwf) by lia.
  cbn [fst ofstream_of plain_file sink_opens sink_room out_data].
  split; [apply LoadBMP_encoded; assumption |].
  destruct (columns_in_range (GetWidth image) ltac:(lia)) as [Hwide Hexact].
  split.
  - intros Hmod. unfold widened. rewrite (Hexact Hmod), Z.sub_diag.
    cbn [Z.to_nat repeat].
    destruct image as [w h rows]. cbn [GetWidth GetHeight pixels]. f_equal.
    rewrite <- (map_id rows) at 2. apply map_ext. intros line.
    apply app_nil_r.
  - intros Hmod. unfold widened. cbn [GetWidth]. exact (Hwide Hmod).
Qed.

(** ** What LoadBMP returns *)

Lemma Image_eq_empty_dec (img : Image) : {img = Image_empty} + {img <> Image_empty}.
Proof.
  destruct img as [w h rows]. unfold Image_empty.
  destruct (Z.eq_dec w 0) as [-> | Hw]; [| right; congruence].
  destruct (Z.eq_dec h 0) as [-> | Hh]; [| right; congruence].
  destruct rows as [| line rows]; [left; reflexivity | right; congruence].
Qed.

(** The columns of a decoded image: within range, and never 3 modulo 4. *)
Lemma decoded_columns (w : Z) :
  0 < w <= MAX_WIDTH ->
  w <= GetBMPStride w / 3 <= MAX_WIDTH /\ (GetBMPStride w / 3) mod 4 <> 3.
Proof.
  intros Hw. unfold MAX_WIDTH in Hw.
  destruct (columns_in_range w) as [Hwide Hexact]; [unfold MAX_WIDTH; lia |].
  pose proof (Z.div_mod w 4 ltac:(lia)) as Hdm.
  pose proof (Z.mod_pos_bound w 4 ltac:(lia)) as Hm.
  destruct (Z.eq_dec (w mod 4) 3) as [H3 | Hn3].
  - rewrite (Hwide H3). unfold MAX_WIDTH. split; [lia |].
    replace (w + 1) with (0 + (w / 4 + 1) * 4) by lia.
    rewrite Z.mod_add by lia. discriminate.
  - rewrite (Hexact Hn3). unfold MAX_WIDTH. split; [lia | exact Hn3].
Qed.

(** The decoded image satisfies the invariant of the pixel buffer. *)
Lemma decode_image_wf (data : list byte) :
  headers_valid data = true ->
  declared_width data <= MAX_WIDTH ->
  (Z.to_nat (declared_height data) * Z.to_nat (GetBMPStride (declared_width data))
   <= length (pixel_data data))%nat ->
  Image_wf (decode_image data).
Proof.
  intros Hvalid Hmax Hfits.
  destruct (headers_valid_dimensions data Hvalid) as [Hw Hh].
  destruct (GetBMPStride_bounds (declared_width data)) as [_ [Hlo Hhi]]; [lia |].
  destruct (decoded_columns (declared_width data)) as [[Hc1 Hc2] _]; [lia |].
  unfold MAX_WIDTH in Hmax, Hc2.
  unfold Image_wf, decode_image. cbn [GetWidth GetHeight pixels].
  split; [unfold INT_MAX; lia |]. split; [lia |]. split.
  - rewrite length_rev, length_map, chunks_length. reflexivity.
  - apply Forall_rev, Forall_map.
    pose proof (chunks_full _ _ _ Hfits) as Hchunks.
    rewrite Forall_forall in Hchunks |- *. intros chunk Hin.
    apply decode_row_length; [lia |]. rewrite (Hchunks chunk Hin). lia.
Qed.

(** Whatever the input, what [LoadBMP] returns is the empty image or the
    complete decoded image of a file with valid headers, a width within
    range and all its rows. *)
Lemma LoadBMP_Done_cases (file : option (list byte)) (img : Image) :
  LoadBMP file = Done img ->
  img = Image_empty \/
  exists data,
    file = Some data /\ headers_valid data = true /\
    declared_width data <= MAX_WIDTH /\
    (Z.to_nat (declared_height data)
     * Z.to_nat (GetBMPStride (declared_width data))
     <= length (pixel_data data))%nat /\
    img = decode_image data.
Proof.
  intros Hload. destruct file as [data |].
  2: { injection Hload as <-. left. reflexivity. }
  destruct (Image_eq_empty_dec img) as [-> | Hne]; [left; reflexivity |].
  right. exists data.
  destruct (LoadBMP_Done_inv data img Hload Hne) as [Hv [Hm [Hf He]]].
  repeat split; assumption.
Qed.

Lemma Image_empty_wf : Image_wf Image_empty.
Proof.
  unfold Image_wf, Image_empty, INT_MAX. cbn [GetWidth GetHeight pixels].
  split; [lia |]. split; [lia |]. split; [reflexivity | constructor].
Qed.

(** X3: whatever the input, an image that [LoadBMP] returns satisfies the
    invariant of the pixel buffer (as many rows as its height, every row as
    long as its width), and its width is at most [MAX_WIDTH] and does not
    leave remainder 3 modulo 4. *)
Theorem LoadBMP_result_wf (file : option (list byte)) (img : Image) :
  LoadBMP file = Done img ->
  Image_wf img /\ GetWidth img <= MAX_WIDTH /\ GetWidth img mod 4 <> 3.
Proof.
  intros Hload.
  destruct (LoadBMP_Done_cases file img Hload)
    as [-> | [data [_ [Hvalid [Hmax [Hfits ->]]]]]].
  - split; [exact Image_empty_wf |].
    unfold MAX_WIDTH. cbn [Image_empty GetWidth]. split; [lia | discriminate].
  - destruct (headers_valid_dimensions data Hvalid) as [Hw _].
    split; [apply decode_image_wf; assumption |].
    destruct (decoded_columns (declared_width data)) as [[_ Hc] Hm]; [lia |].
    unfold decode_image. cbn [GetWidth]. split; assumption.
Qed.

Lemma LoadBMP_result_wf_witness :
  Image_wf image_3x1_loaded /\ GetWidth image_3x1_loaded <= MAX_WIDTH /\
  GetWidth image_3x1_loaded mod 4 <> 3.
Proof.
  apply (LoadBMP_result_wf (Some file_3x1) image_3x1_loaded).
  vm_compute. reflexivity.
Defined.

(** ** Loading, then saving *)

Lemma widened_exact (image : Image) :
  0 <= GetWidth image <= MAX_WIDTH -> GetWidth image mod 4 <> 3 ->
  widened image = image.
Proof.
  intros Hw Hmod.
  destruct (columns_in_range (GetWidth image) Hw) as [_ Hexact].
  unfold widened. rewrite (Hexact Hmod), Z.sub_diag. cbn [Z.to_nat repeat].
  destruct image as [w h rows]. cbn [GetWidth GetHeight pixels]. f_equal.
  rewrite <- (map_id rows) at 2. apply map_ext. intros line. apply app_nil_r.
Qed.

Lemma plain_file_data (bs : list byte) :
  out_data (ofstream_of plain_file bs) = bs /\
  out_good (ofstream_of plain_file bs) = true.
Proof. split; reflexivity. Qed.

(** X4: an image that [LoadBMP] returned is saved by [SaveBMP] without a
    fault, whatever the sink; on a sink that opens and never fills up,
    [SaveBMP] writes the headers followed by the encoded rows and returns
    [true]. *)
Theorem SaveBMP_after_LoadBMP (file : option (list byte)) (img : Image) :
  LoadBMP file = Done img ->
  (forall sink : Sink, snd (SaveBMP sink img) <> Fault) /\
  SaveBMP plain_file img
  = (mkOfstream (encode_headers img ++ encode_rows img) true None, Done true).
Proof.
  intros Hload.
  assert (Hsave : forall sink,
            SaveBMP sink img =
            (ofstream_of sink (encode_headers img ++ encode_rows img),
             Done (out_good (ofstream_of sink
                               (encode_headers img ++ encode_rows img))))).
  { intros sink.
    destruct (LoadBMP_Done_cases file img Hload)
      as [-> | [data [_ [Hvalid [Hmax [Hfits ->]]]]]].
    - apply SaveBMP_in_range; [exact Image_empty_wf |].
      unfold MAX_WIDTH. cbn [Image_empty GetWidth]. lia.
    - destruct (headers_valid_dimensions data Hvalid) as [Hw _].
      apply SaveBMP_in_range; [apply decode_image_wf; assumption |].
      destruct (decoded_columns (declared_width data)) as [[_ Hc] _]; [lia |].
      unfold decode_image. cbn [GetWidth]. exact Hc. }
  split.
  - intros sink. rewrite (Hsave sink). cbn [snd]. discriminate.
  - rewrite (Hsave plain_file). reflexivity.
Qed.

Lemma SaveBMP_after_LoadBMP_witness :
  (forall sink : Sink, snd (SaveBMP sink image_3x1_loaded) <> Fault) /\
  SaveBMP plain_file image_3x1_loaded
  = (mkOfstream (encode_headers image_3x1_loaded
                 ++ encode_rows image_3x1_loaded) true None, Done true).
Proof.
  apply (SaveBMP_after_LoadBMP (Some file_3x1) image_3x1_loaded).
  vm_compute. reflexivity.
Defined.

(** X5: every image other than the empty one that [LoadBMP] returns comes back
    unchanged when it is saved with [SaveBMP] to a sink that never fills up
    and the bytes written are loaded again. *)
Theorem LoadBMP_image_stable (data : list byte) (img : Image) :
  LoadBMP (Some data) = Done img -> img <> Image_empty ->
  snd (SaveBMP plain_file img) = Done true /\
  LoadBMP (Some (out_data (fst (SaveBMP plain_file img)))) = Done img.
Proof.
  intros Hload Hne.
  destruct (LoadBMP_Done_cases (Some data) img Hload)
    as [-> | [data' [Hsome [Hvalid [Hmax [Hfits ->]]]]]]; [contradiction |].
  injection Hsome as <-.
  destruct (headers_valid_dimensions data Hvalid) as [Hw Hh].
  destruct (decoded_columns (declared_width data)) as [[Hc1 Hc2] Hmod]; [lia |].
  pose proof (decode_image_wf data Hvalid Hmax Hfits) as Hwf.
  rewrite (SaveBMP_in_range plain_file (decode_image data) Hwf)
    by (unfold decode_image; cbn [GetWidth]; exact Hc2).
  cbn [fst snd].
  destruct (plain_file_data (encode_headers (decode_image data)
                             ++ encode_rows (decode_image data)))
    as [Hdata Hgood].
  rewrite Hdata, Hgood. split; [reflexivity |].
  rewrite LoadBMP_encoded;
    [| exact Hwf
     | unfold decode_image; cbn [GetWidth]; lia
     | unfold decode_image; cbn [GetHeight]; lia].
  f_equal. apply widened_exact.
  - unfold decode_image. cbn [GetWidth]. lia.
  - unfold decode_image. cbn [GetWidth]. exact Hmod.
Qed.

Lemma LoadBMP_image_stable_witness :
  snd (SaveBMP plain_file image_3x1_loaded) = Done true /\
  LoadBMP (Some (out_data (fst (SaveBMP plain_file image_3x1_loaded))))
  = Done image_3x1_loaded.
Proof.
  apply (LoadBMP_image_stable file_3x1 image_3x1_loaded).
  - vm_compute. reflexivity.
  - discriminate.
Defined.

(** ** Where the pixels come from *)

Lemma nth_error_chunks (n size k : nat) (bs : list byte) :
  (k < n)%nat ->
  nth_error (chunks n size bs) k = Some (firstn size (skipn (k * size) bs)).
Proof.
  revert k bs. induction n as [| n IH]; intros k bs Hk; [lia |].
  destruct k as [| k]; [reflexivity |].
  cbn [chunks nth_error]. rewrite IH by lia.
  rewrite skipn_skipn. do 3 f_equal. lia.
Qed.

Lemma nth_error_decode_pixels (x : nat) :
  forall (bs : list byte) (cb cg cr : byte),
    nth_error bs (3 * x) = Some cb ->
    nth_error bs (3 * x + 1) = Some cg ->
    nth_error bs (3 * x + 2) = Some cr ->
    nth_error (decode_pixels bs) x = Some (mkColor cr cg cb).
Proof.
  induction x as [| x IH]; intros bs cb cg cr Hb Hg Hr.
  - destruct bs as [| c0 [| c1 [| c2 bs]]]; try discriminate.
    cbn in Hb, Hg, Hr. injection Hb as <-. injection Hg as <-.
    injection Hr as <-. reflexivity.
  - replace (3 * S x)%nat with (S (S (S (3 * x)))) in Hb, Hg, Hr by lia.
    destruct bs as [| c0 [| c1 [| c2 bs]]]; try discriminate.
    cbn [Nat.add nth_error decode_pixels] in *.
    apply IH; assumption.
Qed.

(** Byte [i] of encoded row [k] of the pixel data is byte
    [54 + k * stride + i] of the file. *)
Lemma nth_error_row (data : list byte) (size k i : nat) :
  (i < size)%nat ->
  nth_error (firstn size (skipn (k * size) (pixel_data data))) i
  = nth_error data (54 + k * size + i).
Proof.
  intros Hi. unfold pixel_data.
  rewrite nth_error_firstn.
  destruct (Nat.ltb_spec i size) as [_ | Hc]; [| lia].
  rewrite !nth_error_skipn. f_equal; lia.
Qed.

(** X6: in a successful decode, the pixel at column [x < width] of row
    [y < height] is read from the three bytes at offset
    [54 + (height - 1 - y) * stride + 3 * x] of the file: blue, green, red
    in this order.  Rows are stored bottom-up, and no pixel within the
    declared width is left unset. *)
Theorem LoadBMP_pixel_at (data : list byte) (img : Image) (x y : nat) :
  LoadBMP (Some data) = Done img -> img <> Image_empty ->
  Z.of_nat x < declared_width data ->
  Z.of_nat y < declared_height data ->
  let stride := Z.to_nat (GetBMPStride (declared_width data)) in
  let off := (54 + (Z.to_nat (declared_height data) - 1 - y) * stride + 3 * x)%nat in
  exists cb cg cr : byte,
    nth_error data off = Some cb /\
    nth_error data (off + 1) = Some cg /\
    nth_error data (off + 2) = Some cr /\
    GetPixel img x y = Some (mkColor cr cg cb).
Proof.
  intros Hload Hne Hx Hy. cbv zeta.
  destruct (LoadBMP_Done_cases (Some data) img Hload)
    as [-> | [data' [Hsome [Hvalid [Hmax [Hfits ->]]]]]]; [contradiction |].
  injection Hsome as <-.
  destruct (headers_valid_dimensions data Hvalid) as [Hw Hh].
  destruct (GetBMPStride_bounds (declared_width data)) as [_ [Hlo Hhi]]; [lia |].
  set (stride := Z.to_nat (GetBMPStride (declared_width data))) in *.
  set (h := Z.to_nat (declared_height data)) in *.
  set (k := (h - 1 - y)%nat).
  assert (Hk : (k < h)%nat) by (unfold k, h; lia).
  assert (Hlen : (length data = 54 + length (pixel_data data))%nat \/
                 (length data < 54)%nat).
  { unfold pixel_data. rewrite length_skipn. lia. }
  assert (H54 : (54 <= length data)%nat).
  { unfold headers_valid in Hvalid. apply andb_true_iff in Hvalid.
    destruct Hvalid as [Hv _]. apply Nat.leb_le in Hv. exact Hv. }
  assert (Hrowfits : (k * stride + stride <= length (pixel_data data))%nat) by nia.
  assert (Hbyte : forall i, (i < stride)%nat ->
            exists c, nth_error data (54 + k * stride + i) = Some c).
  { intros i Hi.
    destruct (nth_error data (54 + k * stride + i)) as [c |] eqn:Hc;
      [exists c; reflexivity |].
    apply nth_error_None in Hc. lia. }
  assert (H3x : (3 * x + 2 < stride)%nat) by (unfold stride; lia).
  destruct (Hbyte (3 * x)%nat ltac:(lia)) as [cb Hcb].
  destruct (Hbyte (3 * x + 1)%nat ltac:(lia)) as [cg Hcg].
  destruct (Hbyte (3 * x + 2)%nat ltac:(lia)) as [cr Hcr].
  exists cb, cg, cr.
  rewrite <- !Nat.add_assoc.
  split; [exact Hcb |]. split; [exact Hcg |]. split; [exact Hcr |].
  unfold GetPixel, decode_image. cbn [pixels].
  fold stride. fold h.
  rewrite nth_error_rev, length_map, chunks_length.
  destruct (Nat.ltb_spec y h) as [_ | Hc]; [| unfold h in Hc; lia].
  replace (h - S y)%nat with k by (unfold k; lia).
  rewrite nth_error_map, nth_error_chunks by exact Hk.
  cbn [option_map]. unfold decode_row.
  assert (Hpre : length (firstn (Z.to_nat (3 * declared_width data))
                           (firstn stride (skipn (k * stride) (pixel_data data))))
                 = (3 * Z.to_nat (declared_width data))%nat).
  { assert (Hs3 : (Z.to_nat (3 * declared_width data) <= stride)%nat)
      by (unfold stride; lia).
    rewrite firstn_length_le; [lia |].
    rewrite firstn_length_le; [exact Hs3 |]. rewrite length_skipn. lia. }
  rewrite nth_error_app1
    by (rewrite (decode_pixels_length (Z.to_nat (declared_width data)) _ Hpre);
        lia).
  apply nth_error_decode_pixels;
    rewrite nth_error_firstn;
    match goal with
    | |- (if Nat.ltb ?a ?b then _ else _) = _ =>
        destruct (Nat.ltb_spec a b) as [_ | Hc]; [| lia]
    end;
    rewrite nth_error_row by lia; assumption.
Qed.

Lemma LoadBMP_pixel_at_witness :
  exists cb cg cr : byte,
    nth_error file_3x1
      (54 + (Z.to_nat (declared_height file_3x1) - 1 - 0)
            * Z.to_nat (GetBMPStride (declared_width file_3x1)) + 3 * 1)
    = Some cb /\
    nth_error file_3x1
      (54 + (Z.to_nat (declared_height file_3x1) - 1 - 0)
            * Z.to_nat (GetBMPStride (declared_width file_3x1)) + 3 * 1 + 1)
    = Some cg /\
    nth_error file_3x1
      (54 + (Z.to_nat (declared_height file_3x1) - 1 - 0)
            * Z.to_nat (GetBMPStride (declared_width file_3x1)) + 3 * 1 + 2)
    = Some cr /\
    GetPixel image_3x1_loaded 1 0 = Some (mkColor cr cg cb).
Proof.
  apply (LoadBMP_pixel_at file_3x1 image_3x1_loaded 1 0).
  - vm_compute. reflexivity.
  - discriminate.
  - vm_compute. reflexivity.
  - vm_compute. reflexivity.
Defined.

(** ** What LoadBMP reads *)

(** [LoadBMP] uses of the headers the signature, the offset and the first
    six fields of the info header. *)
Lemma LoadBMP_ext_fields (d1 d2 : list byte) :
  length d1 = length d2 ->
  field 0 2 d1 = field 0 2 d2 ->
  field 10 4 d1 = field 10 4 d2 ->
  field 14 20 d1 = field 14 20 d2 ->
  skipn 54 d1 = skipn 54 d2 ->
  LoadBMP (Some d1) = LoadBMP (Some d2).
Proof.
  intros Hlen Hsig Hoff Hinfo Hpix.
  assert (Hsub : forall off len, (off + len <= 20)%nat ->
                   field off len (field 14 40 d1) = field off len (field 14 40 d2)).
  { intros off len Hle.
    rewrite !(field_field off len 14 40) by lia.
    rewrite <- !(field_field off len 14 20) by lia.
    rewrite Hinfo. reflexivity. }
  assert (Hw : declared_width d1 = declared_width d2).
  { unfold declared_width, declared_info_header, info_header_of_bytes.
    cbn [biWidth]. rewrite (Hsub 4 4)%nat by lia. reflexivity. }
  assert (Hh : declared_height d1 = declared_height d2).
  { unfold declared_height, declared_info_header, info_header_of_bytes.
    cbn [biHeight]. rewrite (Hsub 8 4)%nat by lia. reflexivity. }
  assert (Hvalid : headers_valid d1 = headers_valid d2).
  { unfold headers_valid, unsupported. rewrite Hlen.
    fold (declared_width d1). fold (declared_width d2).
    fold (declared_height d1). fold (declared_height d2).
    rewrite Hw, Hh.
    unfold declared_file_header, file_header_of_bytes,
      declared_info_header, info_header_of_bytes.
    cbn [bfType bfOffBits biSize biPlanes biBitCount biCompression].
    rewrite !(field_field _ _ 0 14) by lia. cbn [Nat.add].
    rewrite Hsig, Hoff.
    rewrite (Hsub 0 4)%nat, (Hsub 12 2)%nat, (Hsub 14 2)%nat, (Hsub 16 4)%nat
      by lia.
    reflexivity. }
  destruct (headers_valid d2) eqn:Hv2.
  - rewrite (LoadBMP_valid d1 Hvalid), (LoadBMP_valid d2 Hv2).
    rewrite Hw, Hh.
    destruct (Image_new _ _ Black) as [image |]; [| reflexivity].
    cbn [obind].
    destruct (vector_new _ x00) as [row |]; [| reflexivity].
    cbn [obind].
    apply load_rows_stream_ext; [reflexivity | exact Hpix].
  - rewrite (LoadBMP_invalid d1 Hvalid), (LoadBMP_invalid d2 Hv2). reflexivity.
Qed.

(** X7: the result of [LoadBMP] depends only on the length of the input, on
    bytes 0..1 (signature), 10..33 (offset, info header size, width,
    height, planes, bit count, compression) and on the bytes from offset 54
    on: two inputs of equal length that agree there decode alike.  The file
    size, the reserved field, the image size, the resolution and the colour
    counts are never used. *)
Theorem LoadBMP_reads_only (d1 d2 : list byte) :
  length d1 = length d2 ->
  (forall i : nat,
     (i < 2 \/ 10 <= i < 34 \/ 54 <= i)%nat -> nth_error d1 i = nth_error d2 i) ->
  LoadBMP (Some d1) = LoadBMP (Some d2).
Proof.
  intros Hlen Hsame.
  apply LoadBMP_ext_fields; try exact Hlen;
    apply nth_error_ext; intros i; unfold field;
    rewrite ?nth_error_firstn, ?nth_error_skipn.
  - destruct (Nat.ltb_spec i 2); [apply Hsame; lia | reflexivity].
  - destruct (Nat.ltb_spec i 4); [apply Hsame; lia | reflexivity].
  - destruct (Nat.ltb_spec i 20); [apply Hsame; lia | reflexivity].
  - apply Hsame. lia.
Qed.

Lemma LoadBMP_reads_only_witness :
  nth_error file_3x1 2 <> nth_error file_3x1_cosmetic 2 /\
  nth_error file_3x1 38 <> nth_error file_3x1_cosmetic 38 /\
  LoadBMP (Some file_3x1) = LoadBMP (Some file_3x1_cosmetic).
Proof.
  split; [vm_compute; discriminate |].
  split; [vm_compute; discriminate |].
  apply (LoadBMP_reads_only file_3x1 file_3x1_cosmetic).
  - vm_compute. reflexivity.
  - intros i Hi.
    do 2 (destruct i as [| i]; [vm_compute; reflexivity |]).
    do 8 (destruct i as [| i]; [lia |]).
    do 24 (destruct i as [| i]; [vm_compute; reflexivity |]).
    do 20 (destruct i as [| i]; [lia |]).
    do 12 (destruct i as [| i]; [vm_compute; reflexivity |]).
    vm_compute. reflexivity.
Defined.

Lemma field_app (off len : nat) (data extra : list byte) :
  (off + len <= length data)%nat ->
  field off len (data ++ extra) = field off len data.
Proof.
  intros Hle. unfold field.
  rewrite skipn_app, firstn_app, length_skipn.
  replace (len - (length data - off))%nat with O by lia.
  cbn [firstn]. apply app_nil_r.
Qed.

Lemma chunks_app (n size : nat) (bs extra : list byte) :
  (n * size <= length bs)%nat ->
  chunks n size (bs ++ extra) = chunks n size bs.
Proof.
  revert bs. induction n as [| n IH]; intros bs Hle; [reflexivity |].
  cbn [chunks]. cbn [Nat.mul] in Hle. f_equal.
  - rewrite firstn_app. replace (size - length bs)%nat with O by lia.
    cbn [firstn]. apply app_nil_r.
  - rewrite skipn_app. replace (size - length bs)%nat with O by lia.
    cbn [skipn]. apply IH. rewrite length_skipn. lia.
Qed.

(** X8: bytes that follow the last encoded row are ignored: a file that
    decodes to an image decodes to the same image with anything appended. *)
Theorem LoadBMP_ignores_trailing (data extra : list byte) (img : Image) :
  LoadBMP (Some data) = Done img -> img <> Image_empty ->
  LoadBMP (Some (data ++ extra)) = Done img.
Proof.
  intros Hload Hne.
  destruct (LoadBMP_Done_cases (Some data) img Hload)
    as [-> | [data' [Hsome [Hvalid [Hmax [Hfits ->]]]]]]; [contradiction |].
  injection Hsome as <-.
  assert (H54 : (54 <= length data)%nat).
  { unfold headers_valid in Hvalid. apply andb_true_iff in Hvalid.
    destruct Hvalid as [Hv _]. apply Nat.leb_le in Hv. exact Hv. }
  assert (Hfh : declared_file_header (data ++ extra) = declared_file_header data)
    by (unfold declared_file_header; rewrite field_app by lia; reflexivity).
  assert (Hih : declared_info_header (data ++ extra) = declared_info_header data)
    by (unfold declared_info_header; rewrite field_app by lia; reflexivity).
  assert (Hpix : pixel_data (data ++ extra) = pixel_data data ++ extra).
  { unfold pixel_data. rewrite skipn_app.
    replace (54 - length data)%nat with O by lia. reflexivity. }
  assert (Hvalid' : headers_valid (data ++ extra) = true).
  { unfold headers_valid in *. rewrite Hfh, Hih, length_app.
    apply andb_true_iff in Hvalid. destruct Hvalid as [_ Hsup].
    apply andb_true_iff. split; [apply Nat.leb_le; lia | exact Hsup]. }
  rewrite (LoadBMP_in_range (data ++ extra) Hvalid')
    by (unfold declared_width; rewrite Hih; exact Hmax).
  unfold decode_image, declared_width, declared_height.
  rewrite Hih, Hpix, length_app.
  fold (declared_width data). fold (declared_height data).
  destruct (Nat.leb_spec
              (Z.to_nat (declared_height data)
               * Z.to_nat (GetBMPStride (declared_width data)))
              (length (pixel_data data) + length extra)) as [_ | Hc]; [| lia].
  rewrite chunks_app by exact Hfits. reflexivity.
Qed.

Lemma LoadBMP_ignores_trailing_witness :
  LoadBMP (Some (file_3x1 ++ [x01; x02; x03])) = Done image_3x1_loaded.
Proof.
  apply (LoadBMP_ignores_trailing file_3x1 [x01; x02; x03] image_3x1_loaded).
  - vm_compute. reflexivity.
  - discriminate.
Defined.

(** ** What SaveBMP writes *)

Lemma declared_size (fh : BitmapFileHeader) (ih : BitmapInfoHeader)
  (rest : list byte) :
  bfSize (declared_file_header
            ((file_header_bytes fh ++ info_header_bytes ih) ++ rest))
  = bfSize fh mod 4294967296.
Proof.
  unfold declared_file_header, file_header_of_bytes. cbn [bfSize].
  rewrite field_field by lia.
  unfold file_header_bytes, info_header_bytes.
  cbn [le_bytes app field skipn firstn Nat.add].
  exact (le_value_le_bytes 4 (bfSize fh)).
Qed.

Lemma encode_rows_length (image : Image) :
  Image_wf image -> GetWidth image <= MAX_WIDTH ->
  Z.of_nat (length (encode_rows image))
  = GetBMPStride (GetWidth image) * GetHeight image.
Proof.
  intros [Hw [Hh [Hrows Hcols]]] Hmax.
  destruct (GetBMPStride_bounds (GetWidth image)) as [_ [Hlo _]]; [lia |].
  unfold encode_rows.
  rewrite (flat_map_length_const _ (Z.to_nat (GetBMPStride (GetWidth image)))).
  - rewrite length_rev, Hrows, Nat2Z.inj_mul, !Z2Nat.id by lia. lia.
  - apply Forall_rev. rewrite Forall_forall in Hcols |- *.
    intros line Hin. apply encode_row_length; [lia | auto | lia].
Qed.

(** X9: the file [SaveBMP] writes for an image with [1 <= width <= MAX_WIDTH]
    and [height >= 1] passes the header check of [LoadBMP], declares the
    width and height of the image, and is [54 + stride * height] bytes
    long; when that is below 2^32, the file size field holds the length of
    the file and the image size field the length of the pixel data. *)
Theorem SaveBMP_file_consistent (image : Image) :
  Image_wf image ->
  1 <= GetWidth image <= MAX_WIDTH ->
  1 <= GetHeight image ->
  let data := out_data (fst (SaveBMP plain_file image)) in
  headers_valid data = true /\
  declared_width data = GetWidth image /\
  declared_height data = GetHeight image /\
  Z.of_nat (length data) = 54 + GetBMPStride (GetWidth image) * GetHeight image /\
  (54 + GetBMPStride (GetWidth image) * GetHeight image < 4294967296 ->
   bfSize (declared_file_header data) = Z.of_nat (length data) /\
   biSizeImage (declared_info_header data)
   = Z.of_nat (length (pixel_data data))).
Proof.
  intros Hwf Hwidth Hheight. cbv zeta.
  rewrite (SaveBMP_in_range plain_file image Hwf) by lia.
  cbn [fst]. destruct (plain_file_data (encode_headers image ++ encode_rows image))
    as [-> _].
  pose proof (encode_rows_length image Hwf ltac:(lia)) as Hlen.
  destruct Hwf as [Hw [Hh _]]. unfold INT_MAX in Hw, Hh.
  pose proof Hwidth as Hwidth'. unfold MAX_WIDTH in Hwidth'.
  destruct (GetBMPStride_bounds (GetWidth image)) as [_ [Hlo Hhi]]; [lia |].
  set (data := encode_headers image ++ encode_rows image).
  destruct (declared_headers (SaveBMP_file_header image)
              (SaveBMP_info_header image) (encode_rows image))
    as [Htype [Hoff [Hsize [Hplanes [Hbits [Hcomp [Hdw Hdh]]]]]]].
  pose proof (declared_size (SaveBMP_file_header image)
                (SaveBMP_info_header image) (encode_rows image)) as Hbf.
  fold (encode_headers image) in Htype, Hoff, Hsize, Hplanes, Hbits, Hcomp,
    Hdw, Hdh, Hbf.
  fold data in Htype, Hoff, Hsize, Hplanes, Hbits, Hcomp, Hdw, Hdh, Hbf.
  cbn [SaveBMP_file_header SaveBMP_info_header bfType bfOffBits biSize biPlanes
       biBitCount biCompression biWidth biHeight default_file_header
       default_info_header] in Htype, Hoff, Hsize, Hplanes, Hbits, Hcomp, Hdw, Hdh.
  rewrite Z.mod_small, int_wrap_id in Hdw, Hdh
    by (unfold is_int, INT_MIN, INT_MAX; lia).
  assert (Hdata : Z.of_nat (length data)
                  = 54 + GetBMPStride (GetWidth image) * GetHeight image).
  { unfold data. rewrite length_app, encode_headers_length, Nat2Z.inj_add, Hlen.
    reflexivity. }
  assert (Hpix : pixel_data data = encode_rows image).
  { unfold pixel_data, data.
    rewrite skipn_app, encode_headers_length, Nat.sub_diag.
    rewrite skipn_all2 by (rewrite encode_headers_length; lia).
    reflexivity. }
  split.
  { unfold headers_valid. apply andb_true_iff. split.
    - apply Nat.leb_le. unfold data.
      rewrite length_app, encode_headers_length. lia.
    - apply negb_true_iff, unsupported_false.
      fold (declared_width data). fold (declared_height data).
      rewrite Htype, Hoff, Hsize, Hplanes, Hbits, Hcomp, Hdw, Hdh.
      repeat split; try reflexivity; lia. }
  split; [exact Hdw |]. split; [exact Hdh |]. split; [exact Hdata |].
  intros Hsmall.
  assert (Himg : uint32_wrap (int_mul (GetBMPStride (GetWidth image))
                                      (GetHeight image))
                 = GetBMPStride (GetWidth image) * GetHeight image).
  { unfold int_mul. rewrite uint32_of_int. apply Z.mod_small. nia. }
  split.
  - rewrite Hbf. unfold SaveBMP_file_header. cbn [bfSize].
    rewrite Himg. unfold uint32_wrap, sizeof_file_header, sizeof_info_header.
    rewrite Z.mod_mod by lia. rewrite Z.mod_small by nia. lia.
  - rewrite Hpix, Hlen.
    unfold declared_info_header, info_header_of_bytes. cbn [biSizeImage].
    rewrite field_field by lia.
    unfold data, encode_headers, file_header_bytes, info_header_bytes.
    cbn [le_bytes app field skipn firstn Nat.add].
    rewrite <- Himg.
    etransitivity;
      [exact (le_value_le_bytes 4 (biSizeImage (SaveBMP_info_header image))) |].
    unfold SaveBMP_info_header. cbn [biSizeImage].
    rewrite Himg. apply Z.mod_small. nia.
Qed.

Lemma SaveBMP_file_consistent_witness :
  headers_valid (out_data (fst (SaveBMP plain_file image_2x2))) = true /\
  declared_width (out_data (fst (SaveBMP plain_file image_2x2))) = 2 /\
  declared_height (out_data (fst (SaveBMP plain_file image_2x2))) = 2 /\
  Z.of_nat (length (out_data (fst (SaveBMP plain_file image_2x2)))) = 70.
Proof.
  destruct (SaveBMP_file_consistent image_2x2) as [Hv [Hw [Hh [Hlen _]]]].
  - exact image_2x2_wf.
  - unfold MAX_WIDTH. simpl. lia.
  - simpl. lia.
  - repeat split; assumption.
Defined.

(** X10: [SaveBMP] does not test whether the output could be opened; for a
    pixel buffer with [width <= MAX_WIDTH] and an output that cannot be
    opened it runs through without a fault, writes nothing and returns
    [false]. *)
Theorem SaveBMP_unopened_sink (sink : Sink) (image : Image) :
  Image_wf image -> GetWidth image <= MAX_WIDTH ->
  sink_opens sink = false ->
  out_data (fst (SaveBMP sink image)) = [] /\
  snd (SaveBMP sink image) = Done false.
Proof.
  intros Hwf Hmax Hclosed.
  rewrite (SaveBMP_in_range sink image Hwf Hmax). cbn [fst snd].
  unfold ofstream_of. rewrite Hclosed. split; reflexivity.
Qed.

Lemma SaveBMP_unopened_sink_witness :
  out_data (fst (SaveBMP (mkSink false None) image_2x2)) = [] /\
  snd (SaveBMP (mkSink false None) image_2x2) = Done false.
Proof.
  apply (SaveBMP_unopened_sink (mkSink false None) image_2x2).
  - exact image_2x2_wf.
  - unfold MAX_WIDTH. simpl. lia.
  - reflexivity.
Defined.

Lemma roundtrip_in_range_witness :
  LoadBMP (Some (out_data (fst (SaveBMP plain_file image_2x2))))
  = Done image_2x2.
Proof.
  destruct (roundtrip_in_range image_2x2) as [Hload [Hexact _]].
  - exact image_2x2_wf.
  - unfold MAX_WIDTH. simpl. lia.
  - simpl. lia.
  - rewrite Hload, Hexact; [reflexivity | vm_compute; discriminate].
Defined.

(** ** The converter *)

Section ConverterProperties.

Variable extension : Path -> String.string.
Variable LoadPPM : option (list byte) -> outcome Image.
Variable SavePPM : Sink -> Image -> ofstream * outcome bool.
Variable LoadJPEG : option (list byte) -> outcome Image.
Variable SaveJPEG : Sink -> Image -> ofstream * outcome bool.

Let format_of : Path -> Format := GetFormatByExtension extension.
Let interface_of : Path -> option ImageFormatInterface :=
  GetFormatInterface extension LoadPPM SavePPM LoadJPEG SaveJPEG.
Let run : FileSystem -> Path -> list Path -> Run :=
  main extension LoadPPM SavePPM LoadJPEG SaveJPEG.

(** The format is found by comparing the extension, character by
    character, with the four known ones. *)
Lemma GetFormatByExtension_cases (path : Path) :
  (extension path = ".jpg"%string \/ extension path = ".jpeg"%string) /\
    format_of path = JPEG \/
  extension path = ".ppm"%string /\ format_of path = PPM \/
  extension path = ".bmp"%string /\ format_of path = BMP \/
  ~ In (extension path) known_extensions /\ format_of path = UNKNOWN.
Proof.
  unfold format_of, GetFormatByExtension, known_extensions. cbv zeta.
  destruct (String.eqb_spec (extension path) ".jpg") as [Hjpg | Hjpg];
    [left; split; [left; exact Hjpg | reflexivity] |].
  destruct (String.eqb_spec (extension path) ".jpeg") as [Hjpeg | Hjpeg];
    [left; split; [right; exact Hjpeg | reflexivity] |].
  cbn [orb].
  destruct (String.eqb_spec (extension path) ".ppm") as [Hppm | Hppm];
    [right; left; split; [exact Hppm | reflexivity] |].
  destruct (String.eqb_spec (extension path) ".bmp") as [Hbmp | Hbmp];
    [right; right; left; split; [exact Hbmp | reflexivity] |].
  right; right; right. split; [| reflexivity].
  cbn [In]. intros [H | [H | [H | [H | []]]]]; congruence.
Qed.

(** No codec is found exactly for the extensions that are not known. *)
Lemma GetFormatInterface_None (path : Path) :
  interface_of path = None <-> ~ In (extension path) known_extensions.
Proof.
  unfold interface_of, GetFormatInterface. fold format_of.
  destruct (GetFormatByExtension_cases path)
    as [[Hext ->] | [[Hext ->] | [[Hext ->] | [Hext ->]]]].
  - split; [discriminate |]. intros Hn. exfalso. apply Hn.
    unfold known_extensions. destruct Hext as [Hext | Hext]; rewrite Hext;
      cbn [In]; auto.
  - split; [discriminate |]. intros Hn. exfalso. apply Hn.
    unfold known_extensions. rewrite Hext. cbn [In]. auto.
  - split; [discriminate |]. intros Hn. exfalso. apply Hn.
    unfold known_extensions. rewrite Hext. cbn [In]. auto 6.
  - split; [intros _; exact Hext | reflexivity].
Qed.

Lemma GetFormatInterface_bmp (path : Path) :
  extension path = ".bmp"%string -> interface_of path = Some ImageBMP.
Proof.
  intros Hext. unfold interface_of, GetFormatInterface, GetFormatByExtension.
  rewrite Hext. reflexivity.
Qed.

(** Every run of the converter is one of eight. *)
Lemma main_cases (fs : FileSystem) (program : Path) (args : list Path) :
  (length args <> 2%nat /\
   run_exit (run fs program args) = Done 1 /\
   run_output (run fs program args) = None) \/
  exists in_path out_path,
    args = [in_path; out_path] /\
    ((interface_of in_path = None /\
      run fs program args
      = mkRun ["Unknown format of the input file"%string] [] None (Done 2)) \/
     exists in_format,
       interface_of in_path = Some in_format /\
       ((interface_of out_path = None /\
         run fs program args
         = mkRun ["Unknown format of the output file"%string] [] None (Done 3)) \/
        exists out_format,
          interface_of out_path = Some out_format /\
          ((LoadImage in_format (fs_source fs in_path) = Fault /\
            run fs program args = mkRun [] [] None Fault) \/
           exists image,
             LoadImage in_format (fs_source fs in_path) = Done image /\
             ((Image_bool image = false /\
               run fs program args
               = mkRun ["Loading failed"%string] [] None (Done 4)) \/
              Image_bool image = true /\
              exists out,
                fst (SaveImage out_format (fs_sink fs out_path) image) = out /\
                ((snd (SaveImage out_format (fs_sink fs out_path) image) = Fault /\
                  run fs program args = mkRun [] [] (Some out) Fault) \/
                 (snd (SaveImage out_format (fs_sink fs out_path) image)
                  = Done false /\
                  run fs program args
                  = mkRun ["Saving failed"%string] [] (Some out) (Done 5)) \/
                 (snd (SaveImage out_format (fs_sink fs out_path) image)
                  = Done true /\
                  run fs program args
                  = mkRun [] ["Successfully converted"%string] (Some out)
                          (Done 0))))))).
Proof.
  unfold run, main. fold interface_of.
  destruct args as [| in_path [| out_path [| extra args]]];
    try (left; cbn [length]; split; [lia | split; reflexivity]).
  right. exists in_path, out_path. split; [reflexivity |].
  destruct (interface_of in_path) as [in_format |];
    [right; exists in_format; split; [reflexivity |] | left; split; reflexivity].
  destruct (interface_of out_path) as [out_format |];
    [right; exists out_format; split; [reflexivity |] | left; split; reflexivity].
  destruct (LoadImage in_format (fs_source fs in_path)) as [image |];
    [right; exists image; split; [reflexivity |] | left; split; reflexivity].
  destruct (Image_bool image);
    [right; split; [reflexivity |] | left; split; reflexivity].
  cbn [negb].
  destruct (SaveImage out_format (fs_sink fs out_path) image)
    as [out [[|] |]]; exists out; (split; [reflexivity |]); cbn [snd].
  - right; right. split; reflexivity.
  - right; left. split; reflexivity.
  - left. split; reflexivity.
Qed.

Lemma known_extension_interface (path : Path) :
  In (extension path) known_extensions <-> interface_of path <> None.
Proof.
  split.
  - intros Hin Hnone. apply GetFormatInterface_None in Hnone. contradiction.
  - intros Hsome.
    destruct (in_dec String.string_dec (extension path) known_extensions)
      as [Hin | Hnot]; [exact Hin |].
    apply GetFormatInterface_None in Hnot. contradiction.
Qed.

(** Facts about one run, brought to a common form and compared. *)
Ltac run_facts :=
  repeat match goal with
         | H : exists _, _ |- _ => destruct H
         | H : _ /\ _ |- _ => destruct H
         | H : ?a = [_; _], E : ?a = [_; _] |- _ =>
             rewrite E in H; injection H as ? ?; subst
         | H : ~ In (extension _) known_extensions |- _ =>
             apply GetFormatInterface_None in H
         | H : In (extension _) known_extensions |- _ =>
             apply known_extension_interface in H
         | H : length ?a <> 2%nat, E : ?a = [_; _] |- _ =>
             exfalso; apply H; rewrite E; reflexivity
         | H : ?a = [_; _], E : length ?a <> 2%nat |- _ =>
             exfalso; apply E; rewrite H; reflexivity
         end;
  try discriminate; try congruence; try reflexivity.

(** The seven parts of the table of exit codes. *)
Ltac exit_table H code :=
  split; [split; intros H |
  split; [split; intros H |
  split; [split; intros H |
  split; [split; intros H |
  split; [split; intros H |
  split; [split; intros H | intros code H]]]]]].

(** The last part of the table, for a run whose exit code is known. *)
Ltac exit_range H :=
  injection H as <-; split; [lia | intros; try reflexivity; lia].

(** X11: the exit code of the converter: 1 when it is not given exactly two
    paths; 2 when the extension of the input path is unknown, whatever the
    output path; 3 when only that of the output path is unknown; 4 when the
    codec of the input returns an empty image; 5 when the codec of the
    output returns [false]; 0 when it returns [true].  With the codes 1 to
    4 the output path is never opened. *)
Theorem main_exit_codes (fs : FileSystem) (program : Path) (args : list Path) :
  (run_exit (run fs program args) = Done 1 <-> length args <> 2%nat) /\
  (run_exit (run fs program args) = Done 2 <->
   exists in_path out_path,
     args = [in_path; out_path] /\
     ~ In (extension in_path) known_extensions) /\
  (run_exit (run fs program args) = Done 3 <->
   exists in_path out_path,
     args = [in_path; out_path] /\
     In (extension in_path) known_extensions /\
     ~ In (extension out_path) known_extensions) /\
  (run_exit (run fs program args) = Done 4 <->
   exists in_path out_path in_format out_format image,
     args = [in_path; out_path] /\
     interface_of in_path = Some in_format /\
     interface_of out_path = Some out_format /\
     LoadImage in_format (fs_source fs in_path) = Done image /\
     Image_bool image = false) /\
  (run_exit (run fs program args) = Done 5 <->
   exists in_path out_path in_format out_format image,
     args = [in_path; out_path] /\
     interface_of in_path = Some in_format /\
     interface_of out_path = Some out_format /\
     LoadImage in_format (fs_source fs in_path) = Done image /\
     Image_bool image = true /\
     snd (SaveImage out_format (fs_sink fs out_path) image) = Done false) /\
  (run_exit (run fs program args) = Done 0 <->
   exists in_path out_path in_format out_format image,
     args = [in_path; out_path] /\
     interface_of in_path = Some in_format /\
     interface_of out_path = Some out_format /\
     LoadImage in_format (fs_source fs in_path) = Done image /\
     Image_bool image = true /\
     snd (SaveImage out_format (fs_sink fs out_path) image) = Done true) /\
  (forall code, run_exit (run fs program args) = Done code ->
                0 <= code <= 5 /\
                (1 <= code <= 4 -> run_output (run fs program args) = None)).
Proof.
  destruct (main_cases fs program args)
    as [[Hlen [Hexit Hout]] | [in_path [out_path [Hargs Hcase]]]];
    [| destruct Hcase as [[Hin Hrun] | [in_format [Hin Hcase]]];
       [| destruct Hcase as [[Hout Hrun] | [out_format [Hout Hcase]]];
          [| destruct Hcase as [[Hload Hrun] | [image [Hload Hcase]]];
             [| destruct Hcase as [[Hbool Hrun] | [Hbool [out [Hfst Hcase]]]];
                [| destruct Hcase as [[Hsave Hrun] | [[Hsave Hrun] | [Hsave Hrun]]]
                ]]]]].
  - rewrite Hexit, Hout. exit_table H code; run_facts.
    exit_range H.
  - rewrite Hrun. cbn [run_exit run_output]. exit_table H code; run_facts.
    + exists in_path, out_path. split; [exact Hargs |].
      apply GetFormatInterface_None. exact Hin.
    + exit_range H.
  - rewrite Hrun. cbn [run_exit run_output]. exit_table H code; run_facts.
    + exists in_path, out_path. split; [exact Hargs |].
      split; [apply known_extension_interface; congruence
             | apply GetFormatInterface_None; exact Hout].
    + exit_range H.
  - rewrite Hrun. cbn [run_exit run_output]. exit_table H code; run_facts.
  - rewrite Hrun. cbn [run_exit run_output]. exit_table H code; run_facts.
    + exists in_path, out_path, in_format, out_format, image.
      repeat split; assumption.
    + exit_range H.
  - rewrite Hrun. cbn [run_exit run_output]. exit_table H code; run_facts.
  - rewrite Hrun. cbn [run_exit run_output]. exit_table H code; run_facts.
    + exists in_path, out_path, in_format, out_format, image.
      repeat split; assumption.
    + exit_range H.
  - rewrite Hrun. cbn [run_exit run_output]. exit_table H code; run_facts.
    + exists in_path, out_path, in_format, out_format, image.
      repeat split; assumption.
    + exit_range H.
Qed.

(** X12: converting a BMP file to a BMP file: for every input that [LoadBMP]
    decodes to an image, and an output path whose sink opens and never
    fills up, the run ends with exit code 0 and the line "Successfully
    converted"; the file written is the encoding of the decoded image, and
    decodes to that same image. *)
Theorem main_bmp_to_bmp (fs : FileSystem) (program in_path out_path : Path)
  (data : list byte) (img : Image) :
  extension in_path = ".bmp"%string ->
  extension out_path = ".bmp"%string ->
  fs_source fs in_path = Some data ->
  LoadBMP (Some data) = Done img -> img <> Image_empty ->
  sink_opens (fs_sink fs out_path) = true ->
  sink_room (fs_sink fs out_path) = None ->
  run fs program [in_path; out_path]
  = mkRun [] ["Successfully converted"%string]
          (Some (mkOfstream (encode_headers img ++ encode_rows img) true None))
          (Done 0) /\
  LoadBMP (Some (encode_headers img ++ encode_rows img)) = Done img.
Proof.
  intros Hin Hout Hsrc Hload Hne Hopens Hroom.
  destruct (LoadBMP_Done_cases (Some data) img Hload)
    as [-> | [data' [Hsome [Hvalid [Hmax [Hfits Himg]]]]]]; [contradiction |].
  injection Hsome as <-.
  destruct (headers_valid_dimensions data Hvalid) as [Hw Hh].
  destruct (decoded_columns (declared_width data)) as [[Hc1 Hc2] Hmod]; [lia |].
  pose proof (decode_image_wf data Hvalid Hmax Hfits) as Hwf.
  rewrite <- Himg in Hwf.
  assert (Hcols : GetWidth img = GetBMPStride (declared_width data) / 3)
    by (rewrite Himg; reflexivity).
  assert (Hrows : GetHeight img = declared_height data)
    by (rewrite Himg; reflexivity).
  split.
  - unfold run, main. fold interface_of.
    rewrite (GetFormatInterface_bmp in_path Hin).
    rewrite (GetFormatInterface_bmp out_path Hout).
    cbn [LoadImage SaveImage ImageBMP]. rewrite Hsrc, Hload.
    assert (Hbool : Image_bool img = true).
    { unfold Image_bool. apply andb_true_iff.
      split; apply Z.ltb_lt; lia. }
    rewrite Hbool. cbn [negb].
    rewrite (SaveBMP_in_range (fs_sink fs out_path) img Hwf) by lia.
    unfold ofstream_of. rewrite Hopens, Hroom. reflexivity.
  - rewrite LoadBMP_encoded; [| exact Hwf | lia | lia].
    f_equal. apply widened_exact; [lia |]. rewrite Hcols. exact Hmod.
Qed.

End ConverterProperties.

Lemma main_exit_codes_witness :
  run_exit (bmp_only_main fs_3x1 "convert"%string
              ["in.txt"%string; "out.bmp"%string]) = Done 2 /\
  run_output (bmp_only_main fs_3x1 "convert"%string
                ["in.txt"%string; "out.bmp"%string]) = None.
Proof.
  destruct (main_exit_codes plain_extension no_load no_save no_load no_save
              fs_3x1 "convert"%string ["in.txt"%string; "out.bmp"%string])
    as [_ [_ [_ [_ [_ [_ Hcode]]]]]].
  split; [reflexivity |].
  apply (Hcode 2); [reflexivity | lia].
Defined.

Lemma main_bmp_to_bmp_witness :
  bmp_only_main fs_3x1 "convert"%string ["in.bmp"%string; "out.bmp"%string]
  = mkRun [] ["Successfully converted"%string]
          (Some (mkOfstream (encode_headers image_3x1_loaded
                             ++ encode_rows image_3x1_loaded) true None))
          (Done 0) /\
  LoadBMP (Some (encode_headers image_3x1_loaded ++ encode_rows image_3x1_loaded))
  = Done image_3x1_loaded.
Proof.
  apply (main_bmp_to_bmp plain_extension no_load no_save no_load no_save
           fs_3x1 "convert"%string "in.bmp"%string "out.bmp"%string
           file_3x1 image_3x1_loaded).
  - reflexivity.
  - reflexivity.
  - reflexivity.
  - vm_compute. reflexivity.
  - discriminate.
  - reflexivity.
  - reflexivity.
Defined.

(** ** Widths beyond the range *)

(** X13: a file with valid headers that declares a width above [MAX_WIDTH]
    never decodes to an image: [LoadBMP] ends in a fault or returns the
    empty image, which [operator bool] rejects. *)
Theorem LoadBMP_oversized_width (data : list byte) :
  headers_valid data = true ->
  MAX_WIDTH < declared_width data ->
  (LoadBMP (Some data) = Fault \/ LoadBMP (Some data) = Done Image_empty) /\
  (forall img, LoadBMP (Some data) = Done img -> Image_bool img = false).
Proof.
  intros Hvalid Hbig.
  pose proof (LoadBMP_beyond_range data Hvalid Hbig) as Hcases.
  split; [exact Hcases |].
  intros img Hload. destruct Hcases as [Hf | He]; rewrite Hload in *.
  - discriminate.
  - injection He as ->. reflexivity.
Qed.

Lemma LoadBMP_oversized_width_witness :
  (LoadBMP (Some file_short_rows) = Fault \/
   LoadBMP (Some file_short_rows) = Done Image_empty) /\
  (forall img, LoadBMP (Some file_short_rows) = Done img ->
               Image_bool img = false).
Proof.
  apply (LoadBMP_oversized_width file_short_rows).
  - vm_compute. reflexivity.
  - vm_compute. reflexivity.
Defined.

Lemma list_update_same_length {A : Type} (v : list A) (i : nat) (a : A) :
  length (list_update v i a) = length v.
Proof.
  revert i. induction v as [| c v IH]; intros [| i]; simpl; auto.
Qed.

Lemma vec_set_Done {A : Type} (v v' : list A) (i : Z) (a : A) :
  vec_set v i a = Done v' ->
  0 <= i < Z.of_nat (length v) /\ length v' = length v.
Proof.
  unfold vec_set.
  destruct (Z.ltb_spec i 0) as [| Hlo]; [discriminate |].
  destruct (Z.leb_spec (Z.of_nat (length v)) i) as [| Hhi]; [discriminate |].
  cbn [orb]. intros H. injection H as <-.
  split; [lia | apply list_update_same_length].
Qed.

(** When the inner loop of [SaveBMP] completes, every byte it wrote was
    inside the row buffer. *)
Lemma save_line_Done (n : nat) :
  forall (x : Z) (line : list Color) (row row' : list byte),
    0 <= x -> 3 * x <= Z.of_nat (length row) <= INT_MAX ->
    save_line n x line row = Done row' ->
    3 * (x + Z.of_nat n) <= Z.of_nat (length row).
Proof.
  induction n as [| n IH]; intros x line row row' Hx Hrow Hdone; [lia |].
  unfold INT_MAX in Hrow.
  cbn [save_line] in Hdone.
  destruct (vec_get line x) as [px |]; [| discriminate].
  cbn [obind] in Hdone.
  destruct (vec_set row (int_add (int_mul 3 x) 0) (b px)) as [row1 |] eqn:H1;
    [| discriminate].
  cbn [obind] in Hdone.
  destruct (vec_set row1 (int_add (int_mul 3 x) 1) (g px)) as [row2 |] eqn:H2;
    [| discriminate].
  cbn [obind] in Hdone.
  destruct (vec_set row2 (int_add (int_mul 3 x) 2) (r px)) as [row3 |] eqn:H3;
    [| discriminate].
  cbn [obind] in Hdone.
  apply vec_set_Done in H1. destruct H1 as [_ Hl1].
  apply vec_set_Done in H2. destruct H2 as [_ Hl2].
  apply vec_set_Done in H3. destruct H3 as [Hi3 Hl3].
  rewrite Hl2, Hl1 in Hi3.
  assert (Hidx : int_add (int_mul 3 x) 2 = 3 * x + 2).
  { unfold int_add, int_mul in *.
    rewrite (int_wrap_id (3 * x)) in * by (unfold is_int, INT_MIN, INT_MAX; lia).
    destruct (Z_le_gt_dec (3 * x + 2) 2147483647) as [Hle | Hgt].
    - apply int_wrap_id. unfold is_int, INT_MIN, INT_MAX. lia.
    - exfalso. unfold int_wrap in Hi3.
      replace (3 * x + 2 + 2147483648) with (3 * x + 2 - 2147483648 + 1 * 4294967296)
        in Hi3 by lia.
      rewrite Z.mod_add, Z.mod_small in Hi3 by lia. lia. }
  rewrite Hidx in Hi3.
  rewrite next_column in Hdone by (unfold INT_MAX; lia).
  apply IH in Hdone; [| lia | unfold INT_MAX; lia].
  rewrite Hl3, Hl2, Hl1 in Hdone. lia.
Qed.

(** X14: for a pixel buffer wider than [MAX_WIDTH] with at least one row,
    [SaveBMP] sends the 54 header bytes and then ends in a fault: it never
    sends a row, and it does not return. *)
Theorem SaveBMP_oversized_width (sink : Sink) (image : Image) :
  Image_wf image ->
  MAX_WIDTH < GetWidth image -> 1 <= GetHeight image ->
  SaveBMP sink image = (ofstream_of sink (encode_headers image), Fault).
Proof.
  intros [Hw [Hh [Hrows Hcols]]] Hbig Hheight.
  assert (Hshort : GetBMPStride (GetWidth image) < 3 * GetWidth image).
  { destruct (Z_lt_ge_dec (GetBMPStride (GetWidth image)) (3 * GetWidth image))
      as [Hlt | Hge]; [exact Hlt | exfalso].
    pose proof (GetBMPStride_covers (GetWidth image)
                  ltac:(unfold MAX_WIDTH in Hbig; lia) ltac:(lia)). lia. }
  pose proof (GetBMPStride_is_int (GetWidth image)) as [_ Hint].
  unfold SaveBMP. rewrite ofstream_open_of, !ofstream_write_of. cbn [app].
  fold (encode_headers image).
  unfold vector_new.
  destruct (Z.ltb_spec (GetBMPStride (GetWidth image)) 0) as [| Hpos];
    [reflexivity |].
  destruct (Z.to_nat (GetHeight image)) as [| y] eqn:Hy; [lia |].
  cbn [save_rows]. unfold GetLine.
  destruct (vec_get (pixels image) (Z.of_nat y)) as [line |]; [| reflexivity].
  cbn [obind].
  destruct (save_line _ 0 line _) as [row' |] eqn:Hline; [| reflexivity].
  exfalso. unfold MAX_WIDTH in Hbig.
  apply save_line_Done in Hline;
    [rewrite repeat_length in Hline; lia | lia | rewrite repeat_length; lia].
Qed.

Lemma SaveBMP_oversized_width_witness :
  SaveBMP plain_file image_wide
  = (ofstream_of plain_file (encode_headers image_wide), Fault).
Proof.
  apply (SaveBMP_oversized_width plain_file image_wide).
  - exact image_wide_wf.
  - unfold MAX_WIDTH, image_wide. cbn [GetWidth]. lia.
  - unfold image_wide. cbn [GetHeight]. lia.
Defined.

(** ** SaveBMP loses nothing *)

Lemma Done_inj {A : Type} (a c : A) : Done a = Done c -> a = c.
Proof. intros H. injection H as H. exact H. Qed.

Lemma map_pad_inj {A : Type} (pad : list A) (l1 l2 : list (list A)) :
  map (fun line => line ++ pad) l1 = map (fun line => line ++ pad) l2 ->
  l1 = l2.
Proof.
  revert l2. induction l1 as [| a l1 IH]; intros [| c l2] Hmap;
    try discriminate; [reflexivity |].
  cbn [map] in Hmap. injection Hmap as Hhead Htail.
  apply app_inv_tail in Hhead. subst c. f_equal. apply IH. exact Htail.
Qed.

(** The width that the bytes of an encoded image declare. *)
Lemma encoded_declared_width (image : Image) :
  0 <= GetWidth image <= INT_MAX ->
  declared_width (encode_headers image ++ encode_rows image) = GetWidth image.
Proof.
  intros Hw. unfold INT_MAX in Hw.
  destruct (declared_headers (SaveBMP_file_header image)
              (SaveBMP_info_header image) (encode_rows image))
    as [_ [_ [_ [_ [_ [_ [Hdw _]]]]]]].
  fold (encode_headers image) in Hdw. rewrite Hdw.
  cbn [SaveBMP_info_header biWidth].
  rewrite Z.mod_small, int_wrap_id by (unfold is_int, INT_MIN, INT_MAX; lia).
  reflexivity.
Qed.

(** X15: within the range of widths [SaveBMP] is injective: two pixel buffers
    for which it writes the same bytes are the same buffer. *)
Theorem SaveBMP_injective (image1 image2 : Image) :
  Image_wf image1 -> Image_wf image2 ->
  1 <= GetWidth image1 <= MAX_WIDTH -> 1 <= GetHeight image1 ->
  1 <= GetWidth image2 <= MAX_WIDTH -> 1 <= GetHeight image2 ->
  out_data (fst (SaveBMP plain_file image1))
  = out_data (fst (SaveBMP plain_file image2)) ->
  image1 = image2.
Proof.
  intros Hwf1 Hwf2 Hw1 Hh1 Hw2 Hh2 Hsame.
  rewrite (SaveBMP_in_range plain_file image1 Hwf1) in Hsame by lia.
  rewrite (SaveBMP_in_range plain_file image2 Hwf2) in Hsame by lia.
  cbn [fst ofstream_of plain_file sink_opens sink_room out_data] in Hsame.
  assert (Hwidth : GetWidth image1 = GetWidth image2).
  { rewrite <- (encoded_declared_width image1), <- (encoded_declared_width image2)
      by (destruct Hwf1 as [? _]; destruct Hwf2 as [? _]; assumption).
    rewrite Hsame. reflexivity. }
  pose proof (LoadBMP_encoded image1 Hwf1 Hw1 Hh1) as Hl1.
  pose proof (LoadBMP_encoded image2 Hwf2 Hw2 Hh2) as Hl2.
  rewrite Hsame, Hl2 in Hl1. apply Done_inj in Hl1.
  pose proof (f_equal GetHeight Hl1) as Hheight.
  pose proof (f_equal pixels Hl1) as Hpixels.
  unfold widened in Hheight, Hpixels. cbn [GetHeight pixels] in Hheight, Hpixels.
  rewrite Hwidth in Hpixels. apply map_pad_inj in Hpixels.
  destruct image1 as [w1 h1 p1], image2 as [w2 h2 p2].
  cbn [GetWidth GetHeight pixels] in *. congruence.
Qed.

Lemma SaveBMP_injective_witness : image_2x2 = image_2x2.
Proof.
  apply (SaveBMP_injective image_2x2 image_2x2).
  - exact image_2x2_wf.
  - exact image_2x2_wf.
  - unfold MAX_WIDTH. simpl. lia.
  - simpl. lia.
  - unfold MAX_WIDTH. simpl. lia.
  - simpl. lia.
  - reflexivity.
Defined.

(** ** When LoadBMP returns the empty image *)

(** Beyond [MAX_WIDTH] the empty image is returned only when the first row
    cannot be read in full. *)
Lemma LoadBMP_beyond_range_empty (data : list byte) :
  headers_valid data = true ->
  MAX_WIDTH < declared_width data ->
  LoadBMP (Some data) = Done Image_empty ->
  Z.of_nat (length (pixel_data data))
  < GetBMPStride (declared_width data) * declared_height data.
Proof.
  intros Hvalid Hbig Hload.
  destruct (headers_valid_dimensions data Hvalid) as [Hw Hh].
  assert (Hshort : GetBMPStride (declared_width data) < 3 * declared_width data).
  { destruct (Z_lt_ge_dec (GetBMPStride (declared_width data))
                          (3 * declared_width data)) as [Hlt | Hge];
      [exact Hlt | exfalso].
    pose proof (GetBMPStride_covers (declared_width data) Hw ltac:(lia)). lia. }
  pose proof (GetBMPStride_is_int (declared_width data)) as [_ Hint].
  rewrite (LoadBMP_valid data Hvalid) in Hload.
  destruct (Image_new _ _ _) as [image |]; [| discriminate].
  cbn [obind] in Hload. unfold vector_new in Hload.
  destruct (Z.ltb_spec (GetBMPStride (declared_width data)) 0) as [| Hpos];
    [discriminate |].
  cbn [obind] in Hload.
  destruct (Nat.leb_spec (Z.to_nat (GetBMPStride (declared_width data)))
              (length (pixel_data data))) as [Hfull | Hpart]; [| nia].
  exfalso.
  destruct (Z.to_nat (declared_height data)) as [| y] eqn:Hy; [lia |].
  cbn [load_rows] in Hload.
  rewrite ifstream_read_full in Hload
    by (cbn [in_good in_pos in_data]; try reflexivity; try lia; exact Hfull).
  cbn [in_gcount in_pos in_data] in Hload.
  rewrite Z.eqb_refl in Hload. cbn [negb] in Hload.
  rewrite overwrite_full in Hload
    by (rewrite repeat_length, firstn_length_le; [reflexivity | exact Hfull]).
  destruct (GetLine image (Z.of_nat y)) as [line |]; [| discriminate].
  cbn [obind] in Hload.
  destruct (load_line _ 0 _ line) as [line' |] eqn:Hline; [| discriminate].
  apply load_line_Done in Hline;
    rewrite ?firstn_length_le in * by exact Hfull; lia.
Qed.

(** X1: [LoadBMP] returns the empty image whenever the source cannot be
    opened, fewer than 14 or fewer than 54 bytes of headers can be read,
    the signature is not 0x4D42, the offset is not 54, the info header
    size is not 40, planes is not 1, the bit count is not 24, compression
    is not 0, or width or height is not positive.  And whenever it returns
    the empty image, one of these holds or the pixel data is shorter than
    [stride * height]. *)
Theorem LoadBMP_empty_cases (file : option (list byte)) :
  let rejected (data : list byte) :=
    (length data < 14)%nat \/ (length data < 54)%nat \/
    bfType (declared_file_header data) <> 0x4D42 \/
    bfOffBits (declared_file_header data) <> 54 \/
    biSize (declared_info_header data) <> 40 \/
    biPlanes (declared_info_header data) <> 1 \/
    biBitCount (declared_info_header data) <> 24 \/
    biCompression (declared_info_header data) <> 0 \/
    declared_width data <= 0 \/
    declared_height data <= 0 in
  (file = None \/ (exists data, file = Some data /\ rejected data) ->
   LoadBMP file = Done Image_empty) /\
  (LoadBMP file = Done Image_empty ->
   file = None \/
   exists data,
     file = Some data /\
     (rejected data \/
      Z.of_nat (length (pixel_data data))
      < GetBMPStride (declared_width data) * declared_height data)).
Proof.
  cbv zeta.
  assert (Hrej : forall data,
            headers_valid data = false <->
            ((length data < 14)%nat \/ (length data < 54)%nat \/
             bfType (declared_file_header data) <> 0x4D42 \/
             bfOffBits (declared_file_header data) <> 54 \/
             biSize (declared_info_header data) <> 40 \/
             biPlanes (declared_info_header data) <> 1 \/
             biBitCount (declared_info_header data) <> 24 \/
             biCompression (declared_info_header data) <> 0 \/
             declared_width data <= 0 \/
             declared_height data <= 0)).
  { intros data. unfold headers_valid.
    rewrite andb_false_iff, Nat.leb_gt, negb_false_iff.
    unfold unsupported.
    rewrite !orb_true_iff, !negb_true_iff, !Z.eqb_neq, !Z.leb_le.
    unfold declared_width, declared_height.
    split; [tauto |].
    intros [H | H]; [left; lia | tauto]. }
  split.
  - intros [-> | [data [-> Hwhy]]]; [reflexivity |].
    apply LoadBMP_invalid, Hrej. exact Hwhy.
  - intros Hload. destruct file as [data |]; [right | left; reflexivity].
    exists data. split; [reflexivity |].
    destruct (headers_valid data) eqn:Hvalid;
      [right | left; apply Hrej; exact Hvalid].
    destruct (headers_valid_dimensions data Hvalid) as [Hw Hh].
    destruct (Z_le_gt_dec (declared_width data) MAX_WIDTH) as [Hle | Hgt].
    + destruct (GetBMPStride_bounds (declared_width data)) as [_ [Hlo _]];
        [lia |].
      rewrite (LoadBMP_in_range data Hvalid Hle) in Hload.
      destruct (Nat.leb_spec
                  (Z.to_nat (declared_height data)
                   * Z.to_nat (GetBMPStride (declared_width data)))
                  (length (pixel_data data))) as [Hfits | Hshort].
      * exfalso. apply (decode_image_not_empty data Hvalid). congruence.
      * apply Nat2Z.inj_lt in Hshort.
        rewrite Nat2Z.inj_mul, !Z2Nat.id in Hshort by lia. lia.
    + apply LoadBMP_beyond_range_empty; [exact Hvalid | lia | exact Hload].
Qed.

Lemma LoadBMP_empty_cases_witness :
  LoadBMP (Some (firstn 40 file_3x1)) = Done Image_empty /\
  (Some (firstn 60 file_3x1) = None \/
   exists data,
     Some (firstn 60 file_3x1) = Some data /\
     (((length data < 14)%nat \/ (length data < 54)%nat \/
       bfType (declared_file_header data) <> 0x4D42 \/
       bfOffBits (declared_file_header data) <> 54 \/
       biSize (declared_info_header data) <> 40 \/
       biPlanes (declared_info_header data) <> 1 \/
       biBitCount (declared_info_header data) <> 24 \/
       biCompression (declared_info_header data) <> 0 \/
       declared_width data <= 0 \/
       declared_height data <= 0) \/
      Z.of_nat (length (pixel_data data))
      < GetBMPStride (declared_width data) * declared_height data)).
Proof.
  split.
  - apply (LoadBMP_empty_cases (Some (firstn 40 file_3x1))).
    right. exists (firstn 40 file_3x1). split; [reflexivity |].
    right; left. vm_compute. lia.
  - apply (LoadBMP_empty_cases (Some (firstn 60 file_3x1))).
    vm_compute. reflexivity.
Defined.
